(** * JAD: a 3D residual network, its twin encoder and training loss

    Shallow embedding of [model_train.ipynb].

    - Architecture (hyper-parameters, the layer-construction routine, the
      named constructor) is modelled over [Z] and records and computes.
    - The forward passes are written once, over an interface of tensor
      operations ([Ops]) in a monad.  Two instances are given: a shape-level
      one in an error monad (what PyTorch accepts and which sizes it
      returns) and a value-level one in a state monad over the store of
      parameters, normalisation buffers and random generator.
    - The losses are modelled over the real numbers (floating point rounding
      is not modelled); a tensor is its size together with its row-major
      contents, as in a contiguous [torch.Tensor]. *)

From Stdlib Require Import ZArith List Bool String QArith Reals Lra Lia.
From ExtLib Require Import Structures.Monad.
Import ListNotations.
Import MonadNotation.

Local Open Scope Z_scope.
Local Open Scope monad_scope.


(** ** Modes and names *)

(** [model.train()] / [model.eval()]: the [training] flag of every module. *)
Inductive mode := Train | Eval.

(** A module is identified by its qualified name in the owning model, the
    prefix of its entries in [state_dict()]: [layer3.0.conv1] and so on. *)
Inductive name := Attr (s : string) | Index (i : nat).
Definition key := list name.

Definition sub (k : key) (s : string) : key := k ++ [Attr s].
Definition item (k : key) (i : nat) : key := k ++ [Index i].

(** ** Leaf modules of [torch.nn] (their hyper-parameters)

    Hyper-parameters are taken as the constructors of [torch.nn] accept
    them (channel counts not negative, a dropout rate within [0, 1]); what
    a module then does with an input of the wrong size is part of the
    shape-level semantics. *)

(** [torch.nn.modules.utils._triple]: an int stands for the same value on
    the three spatial axes. *)
Definition _triple (k : Z) : Z * Z * Z := (k, k, k).

Module Conv3d.
(** [nn.Conv3d(in_channels, out_channels, kernel_size, stride, padding,
    bias=False)]; every convolution of the notebook is without bias. *)
Record t := mk {
  in_channels : Z;
  out_channels : Z;
  kernel_size : Z * Z * Z;
  stride : Z * Z * Z;
  padding : Z * Z * Z
}.
End Conv3d.

Module BatchNorm3d.
Record t := mk { num_features : Z }.
End BatchNorm3d.

Module ReLU.
Record t := mk { inplace : bool }.
End ReLU.

Module MaxPool3d.
Record t := mk { kernel_size : Z; stride : Z; padding : Z }.
End MaxPool3d.

Module AdaptiveAvgPool3d.
Record t := mk { output_size : Z * Z * Z }.
End AdaptiveAvgPool3d.

Module Linear.
Record t := mk { in_features : Z; out_features : Z }.
End Linear.

(** [nn.Dropout] zeroes single elements, [nn.Dropout3d] zeroes whole
    channels (a [D x H x W] volume per sample and channel). *)
Inductive Dropout :=
| nn_Dropout (p : Q)
| nn_Dropout3d (p : Q).

Definition dropout_p (d : Dropout) : Q :=
  match d with nn_Dropout p => p | nn_Dropout3d p => p end.

(** [conv3x3x3]: 3x3x3 convolution with padding. *)
Definition conv3x3x3 (in_planes out_planes stride : Z) : Conv3d.t :=
  Conv3d.mk in_planes out_planes (_triple 3) (_triple stride) (_triple 1).

(** [conv1x1x1]: 1x1x1 convolution ([padding] keeps its default 0). *)
Definition conv1x1x1 (in_planes out_planes stride : Z) : Conv3d.t :=
  Conv3d.mk in_planes out_planes (_triple 1) (_triple stride) (_triple 0).

(** The [downsample] argument of a block: [None], or the
    [nn.Sequential(conv1x1x1(...), nn.BatchNorm3d(...))] of [_make_layer]. *)
Definition downsample_t := option (Conv3d.t * BatchNorm3d.t).

(** ** The operations a forward pass is made of

    [M] is the effect of running an operation (an error, or the store being
    read and written), [T] what stands for a tensor.  Operations on modules
    with parameters or buffers take the module's name. *)
Class Ops (M : Type -> Type) (T : Type) := {
  F_conv3d : key -> Conv3d.t -> T -> M T;
  F_batch_norm : key -> BatchNorm3d.t -> T -> M T;
  F_relu : ReLU.t -> T -> M T;
  F_max_pool3d : MaxPool3d.t -> T -> M T;
  F_dropout : Dropout -> T -> M T;
  F_adaptive_avg_pool3d : AdaptiveAvgPool3d.t -> T -> M T;
  torch_flatten : T -> Z -> M T;
  F_linear : key -> Linear.t -> T -> M T;
  iadd : T -> T -> M T
}.

(** [self.downsample(x)]: the convolution, then the normalisation. *)
Definition downsample_forward {M T} {Mon : Monad M} {ops : Ops M T}
    (k : key) (ds : Conv3d.t * BatchNorm3d.t) (x : T) : M T :=
  x <- F_conv3d (item k 0) (fst ds) x ;;
  F_batch_norm (item k 1) (snd ds) x.

(** ** Residual blocks *)

Module BasicBlock.
Definition expansion : Z := 1.

Record t := mk {
  conv1 : Conv3d.t;
  bn1 : BatchNorm3d.t;
  relu : ReLU.t;
  conv2 : Conv3d.t;
  bn2 : BatchNorm3d.t;
  downsample : downsample_t;
  stride : Z;
  dropout : Dropout
}.

(** [BasicBlock.__init__] *)
Definition init (in_planes planes stride : Z) (downsample : downsample_t)
    (dropout_rate : Q) : t :=
  {| conv1 := conv3x3x3 in_planes planes stride;
     bn1 := BatchNorm3d.mk planes;
     relu := ReLU.mk true;
     conv2 := conv3x3x3 planes planes 1;
     bn2 := BatchNorm3d.mk planes;
     downsample := downsample;
     stride := stride;
     dropout := nn_Dropout dropout_rate |}.
Section Forward.
Context {M : Type -> Type} {T : Type} {Mon : Monad M} {ops : Ops M T}.

(** [BasicBlock.forward] *)
Definition forward (k : key) (self : t) (x : T) : M T :=
  let residual := x in
  out <- F_conv3d (sub k "conv1") (conv1 self) x ;;
  out <- F_batch_norm (sub k "bn1") (bn1 self) out ;;
  out <- F_relu (relu self) out ;;
  out <- F_dropout (dropout self) out ;;
  out <- F_conv3d (sub k "conv2") (conv2 self) out ;;
  out <- F_batch_norm (sub k "bn2") (bn2 self) out ;;
  residual <- match downsample self with
              | Some ds => downsample_forward (sub k "downsample") ds x
              | None => ret residual
              end ;;
  out <- iadd out residual ;;
  out <- F_relu (relu self) out ;;
  ret out.
End Forward.
End BasicBlock.

Module Bottleneck.
Definition expansion : Z := 4.

Record t := mk {
  conv1 : Conv3d.t;
  bn1 : BatchNorm3d.t;
  conv2 : Conv3d.t;
  bn2 : BatchNorm3d.t;
  conv3 : Conv3d.t;
  bn3 : BatchNorm3d.t;
  relu : ReLU.t;
  downsample : downsample_t;
  stride : Z;
  dropout : Dropout
}.

(** [Bottleneck.__init__] *)
Definition init (in_planes planes stride : Z) (downsample : downsample_t)
    (dropout_rate : Q) : t :=
  {| conv1 := conv1x1x1 in_planes planes 1;
     bn1 := BatchNorm3d.mk planes;
     conv2 := conv3x3x3 planes planes stride;
     bn2 := BatchNorm3d.mk planes;
     conv3 := conv1x1x1 planes (planes * expansion) 1;
     bn3 := BatchNorm3d.mk (planes * expansion);
     relu := ReLU.mk true;
     downsample := downsample;
     stride := stride;
     dropout := nn_Dropout3d dropout_rate |}.
Section Forward.
Context {M : Type -> Type} {T : Type} {Mon : Monad M} {ops : Ops M T}.

(** [Bottleneck.forward] *)
Definition forward (k : key) (self : t) (x : T) : M T :=
  let residual := x in
  out <- F_conv3d (sub k "conv1") (conv1 self) x ;;
  out <- F_batch_norm (sub k "bn1") (bn1 self) out ;;
  out <- F_relu (relu self) out ;;
  out <- F_dropout (dropout self) out ;;
  out <- F_conv3d (sub k "conv2") (conv2 self) out ;;
  out <- F_batch_norm (sub k "bn2") (bn2 self) out ;;
  out <- F_relu (relu self) out ;;
  out <- F_dropout (dropout self) out ;;
  out <- F_conv3d (sub k "conv3") (conv3 self) out ;;
  out <- F_batch_norm (sub k "bn3") (bn3 self) out ;;
  residual <- match downsample self with
              | Some ds => downsample_forward (sub k "downsample") ds x
              | None => ret residual
              end ;;
  out <- iadd out residual ;;
  out <- F_relu (relu self) out ;;
  ret out.
End Forward.
End Bottleneck.

(** The [block] argument of [ResNet]: one of the two classes. *)
Inductive block_class := BasicBlock_cls | Bottleneck_cls.

(** An instance of either class. *)
Inductive Block :=
| Basic (b : BasicBlock.t)
| Bottle (b : Bottleneck.t).

Module Block.
(** [block.expansion] *)
Definition expansion (block : block_class) : Z :=
  match block with
  | BasicBlock_cls => BasicBlock.expansion
  | Bottleneck_cls => Bottleneck.expansion
  end.

(** [block(in_planes, planes, stride, downsample, dropout_rate=...)] *)
Definition call (block : block_class) (in_planes planes stride : Z)
    (downsample : downsample_t) (dropout_rate : Q) : Block :=
  match block with
  | BasicBlock_cls => Basic (BasicBlock.init in_planes planes stride downsample dropout_rate)
  | Bottleneck_cls => Bottle (Bottleneck.init in_planes planes stride downsample dropout_rate)
  end.

Definition stride (b : Block) : Z :=
  match b with Basic b => BasicBlock.stride b | Bottle b => Bottleneck.stride b end.

Definition downsample (b : Block) : downsample_t :=
  match b with Basic b => BasicBlock.downsample b | Bottle b => Bottleneck.downsample b end.

Definition dropout (b : Block) : Dropout :=
  match b with Basic b => BasicBlock.dropout b | Bottle b => Bottleneck.dropout b end.

(** [in_channels] of the block's first convolution: the channel count the
    block was built for. *)
Definition in_planes (b : Block) : Z :=
  match b with
  | Basic b => Conv3d.in_channels (BasicBlock.conv1 b)
  | Bottle b => Conv3d.in_channels (Bottleneck.conv1 b)
  end.

(** [out_channels] of the block's last convolution. *)
Definition out_planes (b : Block) : Z :=
  match b with
  | Basic b => Conv3d.out_channels (BasicBlock.conv2 b)
  | Bottle b => Conv3d.out_channels (Bottleneck.conv3 b)
  end.
(** Calling a block: dispatch on its class. *)
Definition forward {M T} {Mon : Monad M} {ops : Ops M T} (k : key) (b : Block) (x : T) : M T :=
  match b with
  | Basic b => BasicBlock.forward k b x
  | Bottle b => Bottleneck.forward k b x
  end.
End Block.

(** ** The backbone *)

Module ResNet.
(** A stage: the [nn.Sequential] of the blocks of [_make_layer]. *)
Definition layer := list Block.

(** The blocks appended by [for _ in range(1, blocks)]: each is called
    without [stride] and [downsample], which keep their defaults 1 and
    [None]. *)
Fixpoint more_blocks (n : nat) (block : block_class) (inplanes planes : Z)
    (dropout_rate : Q) : list Block :=
  match n with
  | O => []
  | S n' =>
      Block.call block inplanes planes 1 None dropout_rate
        :: more_blocks n' block inplanes planes dropout_rate
  end.

(** [ResNet._make_layer].  [self.inplanes] is read and written: it is
    passed in and returned next to the stage. *)
Definition _make_layer (inplanes : Z) (block : block_class) (planes blocks stride : Z)
    (dropout_rate : Q) : layer * Z :=
  let downsample :=
    if negb (stride =? 1) || negb (inplanes =? planes * Block.expansion block)
    then Some (conv1x1x1 inplanes (planes * Block.expansion block) stride,
               BatchNorm3d.mk (planes * Block.expansion block))
    else None in
  let layers := [Block.call block inplanes planes stride downsample dropout_rate] in
  let inplanes := planes * Block.expansion block in
  let layers :=
    layers ++ more_blocks (Z.to_nat (blocks - 1)) block inplanes planes dropout_rate in
  (layers, inplanes).

Record t := mk {
  inplanes : Z;
  conv1 : Conv3d.t;
  bn1 : BatchNorm3d.t;
  relu : ReLU.t;
  maxpool : MaxPool3d.t;
  layer1 : layer;
  layer2 : layer;
  layer3 : layer;
  layer4 : layer;
  avgpool : AdaptiveAvgPool3d.t;
  fc : Linear.t
}.

(** [ResNet.__init__].  [layers[i]] raises [IndexError] on a list shorter
    than four: [None].  The initialisation loop at its end only assigns
    initial parameter values, which live in the store of the value-level
    semantics below.  The hyper-parameters are taken to be ones the
    constructors of [torch.nn] accept (see [accepted] below): for a drop-out
    rate outside [0, 1] or a negative count those constructors raise, which
    is not modelled here. *)
Definition init (block : block_class) (layers : list Z) (num_classes : Z)
    (dropout_rate : Q) (in_channels : Z) : option t :=
  let inplanes := 64 in
  let conv1 := Conv3d.mk in_channels 64 (7, 7, 7) (2, 2, 2) (3, 3, 3) in
  let bn1 := BatchNorm3d.mk 64 in
  let relu := ReLU.mk true in
  let maxpool := MaxPool3d.mk 3 2 1 in
  match nth_error layers 0 with
  | None => None
  | Some l0 =>
    let '(layer1, inplanes) := _make_layer inplanes block 64 l0 1 dropout_rate in
    match nth_error layers 1 with
    | None => None
    | Some l1 =>
      let '(layer2, inplanes) := _make_layer inplanes block 128 l1 2 dropout_rate in
      match nth_error layers 2 with
      | None => None
      | Some l2 =>
        let '(layer3, inplanes) := _make_layer inplanes block 256 l2 2 dropout_rate in
        match nth_error layers 3 with
        | None => None
        | Some l3 =>
          let '(layer4, inplanes) := _make_layer inplanes block 512 l3 2 dropout_rate in
          let avgpool := AdaptiveAvgPool3d.mk (1, 1, 1) in
          let fc := Linear.mk (512 * Block.expansion block) num_classes in
          Some (mk inplanes conv1 bn1 relu maxpool layer1 layer2 layer3 layer4 avgpool fc)
        end
      end
    end
  end.
Section Forward.
Context {M : Type -> Type} {T : Type} {Mon : Monad M} {ops : Ops M T}.

(** Calling a stage ([nn.Sequential.forward]): its blocks in order, block
    [i] under the name [k.i]. *)
Fixpoint layer_forward_from (k : key) (i : nat) (self : layer) (input : T) : M T :=
  match self with
  | [] => ret input
  | b :: rest =>
      input <- Block.forward (item k i) b input ;;
      layer_forward_from k (S i) rest input
  end.

Definition layer_forward (k : key) (self : layer) (input : T) : M T :=
  layer_forward_from k 0 self input.

(** [ResNet.forward] *)
Definition forward (k : key) (self : t) (x : T) : M T :=
  x <- F_conv3d (sub k "conv1") (conv1 self) x ;;
  x <- F_batch_norm (sub k "bn1") (bn1 self) x ;;
  x <- F_relu (relu self) x ;;
  x <- F_max_pool3d (maxpool self) x ;;

  x <- layer_forward (sub k "layer1") (layer1 self) x ;;
  x <- layer_forward (sub k "layer2") (layer2 self) x ;;
  x <- layer_forward (sub k "layer3") (layer3 self) x ;;
  x <- layer_forward (sub k "layer4") (layer4 self) x ;;

  x <- F_adaptive_avg_pool3d (avgpool self) x ;;
  x <- torch_flatten x 1 ;;
  x <- F_linear (sub k "fc") (fc self) x ;;

  ret x.
End Forward.
End ResNet.

(** ** Child modules and [nn.Sequential] *)

(** A direct child of the backbone, as [children()] yields it: the module
    object itself, so with the name its parameters are stored under. *)
Inductive nn_Module :=
| M_Conv3d (k : key) (m : Conv3d.t)
| M_BatchNorm3d (k : key) (m : BatchNorm3d.t)
| M_ReLU (m : ReLU.t)
| M_MaxPool3d (m : MaxPool3d.t)
| M_Layer (k : key) (m : ResNet.layer)
| M_AdaptiveAvgPool3d (m : AdaptiveAvgPool3d.t)
| M_Linear (k : key) (m : Linear.t).

(** [self.resnet.children()]: the direct children in the order
    [ResNet.__init__] assigned them. *)
Definition children (k : key) (self : ResNet.t) : list nn_Module :=
  [ M_Conv3d (sub k "conv1") (ResNet.conv1 self);
    M_BatchNorm3d (sub k "bn1") (ResNet.bn1 self);
    M_ReLU (ResNet.relu self);
    M_MaxPool3d (ResNet.maxpool self);
    M_Layer (sub k "layer1") (ResNet.layer1 self);
    M_Layer (sub k "layer2") (ResNet.layer2 self);
    M_Layer (sub k "layer3") (ResNet.layer3 self);
    M_Layer (sub k "layer4") (ResNet.layer4 self);
    M_AdaptiveAvgPool3d (ResNet.avgpool self);
    M_Linear (sub k "fc") (ResNet.fc self) ].

(** The Python slice [l[:-n]]. *)
Definition drop_last {A} (n : nat) (l : list A) : list A :=
  firstn (List.length l - n) l.

Module Sequential.
Definition t := list nn_Module.

Section Forward.
Context {M : Type -> Type} {T : Type} {Mon : Monad M} {ops : Ops M T}.

(** Calling a module: its [forward]. *)
Definition call (m : nn_Module) (input : T) : M T :=
  match m with
  | M_Conv3d k c => F_conv3d k c input
  | M_BatchNorm3d k b => F_batch_norm k b input
  | M_ReLU r => F_relu r input
  | M_MaxPool3d p => F_max_pool3d p input
  | M_Layer k l => ResNet.layer_forward k l input
  | M_AdaptiveAvgPool3d a => F_adaptive_avg_pool3d a input
  | M_Linear k l => F_linear k l input
  end.

(** [nn.Sequential.forward]: [for module in self: input = module(input)]. *)
Fixpoint forward (self : t) (input : T) : M T :=
  match self with
  | [] => ret input
  | m :: rest => input <- call m input ;; forward rest input
  end.
End Forward.
End Sequential.

(** ** The twin encoder *)

Module ModelComb.
Record t := mk { resnet : ResNet.t }.

(** [ModelComb.__init__]: only [resnet] is stored. *)
Definition init (resnet : ResNet.t) (n_classes n_input_channels : Z) : t :=
  {| resnet := resnet |}.

Section Forward.
Context {M : Type -> Type} {T : Type} {Mon : Monad M} {ops : Ops M T}.

(** [ModelComb.forward] *)
Definition forward (self : t) (x1 x2 : T) : M (T * T * T * T) :=
  reg0 <- ResNet.forward [Attr "resnet"] (resnet self) x1 ;;
  reg1 <- ResNet.forward [Attr "resnet"] (resnet self) x2 ;;
  let feature_extractor : Sequential.t :=
    drop_last 2 (children [Attr "resnet"] (resnet self)) in
  features_x1 <- Sequential.forward feature_extractor x1 ;;
  features_x2 <- Sequential.forward feature_extractor x2 ;;
  ret (features_x1, features_x2, reg0, reg1).
End Forward.
End ModelComb.

(** ** The named constructor and the notebook's model *)

(** Keyword arguments of [resnet101], each either passed or left to the
    default of [ResNet.__init__]. *)
Record kwargs := mk_kwargs {
  kw_num_classes : option Z;
  kw_dropout_rate : option Q;
  kw_in_channels : option Z
}.

Definition no_kwargs : kwargs := mk_kwargs None None None.

Definition default {A} (d : A) (o : option A) : A :=
  match o with Some a => a | None => d end.

(** [resnet101]: constructs a ResNet-101 model. *)
Definition resnet101 (kw : kwargs) : option ResNet.t :=
  ResNet.init Bottleneck_cls [3; 4; 23; 3]
    (default 1000 (kw_num_classes kw))
    (default 0%Q (kw_dropout_rate kw))
    (default 3 (kw_in_channels kw)).

(** The notebook's [model]: [ModelComb(resnet=resnet101(num_classes=1,
    in_channels=1), n_classes=1, n_input_channels=1)]. *)
Definition model : option ModelComb.t :=
  match resnet101 (mk_kwargs (Some 1) None (Some 1)) with
  | Some r => Some (ModelComb.init r 1 1)
  | None => None
  end.

(** ** Shape-level semantics: which sizes PyTorch accepts and returns *)

Inductive torch_error := ValueError | RuntimeError | IndexError.

(** The outcome of a call: a value, or a raised exception. *)
Inductive result (A : Type) :=
| Ok (a : A)
| Raise (e : torch_error).
Arguments Ok {A} a.
Arguments Raise {A} e.

#[global] Instance Monad_result : Monad result :=
  {| ret := fun _ a => Ok a;
     bind := fun _ _ m f => match m with Ok a => f a | Raise e => Raise e end |}.

(** [x.shape] *)
Definition shape := list Z.

Definition prod (l : list Z) : Z := fold_right Z.mul 1 l.

Module Shape.
(** Output length of a convolution along one axis (dilation 1):
    [floor((n + 2p - k) / s) + 1]; the padded input must hold the kernel. *)
Definition conv_out (n k s p : Z) : result Z :=
  if s <=? 0 then Raise RuntimeError
  else if n + 2 * p <? k then Raise RuntimeError
  else Ok ((n + 2 * p - k) / s + 1).

Definition conv_out3 (c : Conv3d.t) (d h w : Z) : result (Z * Z * Z) :=
  let '(kd, kh, kw) := Conv3d.kernel_size c in
  let '(sd, sh, sw) := Conv3d.stride c in
  let '(pd, ph, pw) := Conv3d.padding c in
  d <- conv_out d kd sd pd ;;
  h <- conv_out h kh sh ph ;;
  w <- conv_out w kw sw pw ;;
  ret (d, h, w).

(** [nn.Conv3d.forward]: batched [(N, C, D, H, W)] or unbatched
    [(C, D, H, W)] input whose channel count is [in_channels]. The result
    has [out_channels] channels, except that an input without channels
    (accepted by a convolution built for [in_channels = 0]) gives a result
    without channels. *)
Definition conv_channels (c : Conv3d.t) (ci : Z) : Z :=
  if ci =? 0 then 0 else Conv3d.out_channels c.

Definition conv3d (c : Conv3d.t) (s : shape) : result shape :=
  match s with
  | [n; ci; d; h; w] =>
      if ci =? Conv3d.in_channels c
      then '(d, h, w) <- conv_out3 c d h w ;; ret [n; conv_channels c ci; d; h; w]
      else Raise RuntimeError
  | [ci; d; h; w] =>
      if ci =? Conv3d.in_channels c
      then '(d, h, w) <- conv_out3 c d h w ;; ret [conv_channels c ci; d; h; w]
      else Raise RuntimeError
  | _ => Raise RuntimeError
  end.

(** [nn.BatchNorm3d.forward]: [_check_input_dim] wants a 5-D input; when
    training, [_verify_batch_size] raises [ValueError] ("Expected more than 1
    value per channel when training") if [N * D * H * W = 1]; an input
    without elements is then returned as it is; any other input must have
    [num_features] channels. *)
Definition batch_norm (md : mode) (b : BatchNorm3d.t) (s : shape) : result shape :=
  match s with
  | [n; c; d; h; w] =>
      let normalise :=
        if n * c * d * h * w =? 0 then Ok s
        else if c =? BatchNorm3d.num_features b then Ok s else Raise RuntimeError in
      match md with
      | Train => if n * d * h * w =? 1 then Raise ValueError else normalise
      | Eval => normalise
      end
  | _ => Raise ValueError
  end.

(** Output length of a pooling window along one axis (floor mode). *)
Definition pool_out (n k s p : Z) : result Z :=
  if (k <=? 0) || (s <=? 0) || (p <? 0) || (k / 2 <? p) || (n <=? 0)
  then Raise RuntimeError
  else
    let o := (n + 2 * p - k) / s + 1 in
    if o <? 1 then Raise RuntimeError else Ok o.

Definition pool_out3 (m : MaxPool3d.t) (d h w : Z) : result (Z * Z * Z) :=
  let k := MaxPool3d.kernel_size m in
  let s := MaxPool3d.stride m in
  let p := MaxPool3d.padding m in
  d <- pool_out d k s p ;;
  h <- pool_out h k s p ;;
  w <- pool_out w k s p ;;
  ret (d, h, w).

(** [nn.MaxPool3d.forward] *)
Definition max_pool3d (m : MaxPool3d.t) (s : shape) : result shape :=
  match s with
  | [n; c; d; h; w] =>
      if c <=? 0 then Raise RuntimeError
      else '(d, h, w) <- pool_out3 m d h w ;; ret [n; c; d; h; w]
  | [c; d; h; w] =>
      if c <=? 0 then Raise RuntimeError
      else '(d, h, w) <- pool_out3 m d h w ;; ret [c; d; h; w]
  | _ => Raise RuntimeError
  end.

(** [nn.AdaptiveAvgPool3d.forward].  [F.adaptive_avg_pool3d] first wants
    more axes than the output size has entries ([ValueError] otherwise).
    For the output size [(1, 1, 1)] torch then takes the mean over the last
    three axes and keeps them with length 1, whatever the lengths of the
    axes.  For another output size the input is 4-D or 5-D and every
    non-batch axis must be non-empty. *)
Definition adaptive_avg_pool3d (a : AdaptiveAvgPool3d.t) (s : shape) : result shape :=
  let '(od, oh, ow) := AdaptiveAvgPool3d.output_size a in
  if (List.length s <=? 3)%nat then Raise ValueError
  else if (od =? 1) && (oh =? 1) && (ow =? 1)
  then Ok (firstn (List.length s - 3) s ++ [1; 1; 1])
  else
    match s with
    | [n; c; d; h; w] =>
        if (0 <? c) && (0 <? d) && (0 <? h) && (0 <? w)
        then Ok [n; c; od; oh; ow] else Raise RuntimeError
    | [c; d; h; w] =>
        if (0 <? d) && (0 <? h) && (0 <? w)
        then Ok [c; od; oh; ow] else Raise RuntimeError
    | _ => Raise RuntimeError
    end.

(** [torch.flatten(x, start_dim)], [end_dim] being the last axis. *)
Definition flatten (s : shape) (start_dim : Z) : result shape :=
  let len := Z.of_nat (List.length s) in
  let sd := if start_dim <? 0 then start_dim + len else start_dim in
  if (sd <? 0) || (len <=? sd) then Raise IndexError
  else Ok (firstn (Z.to_nat sd) s ++ [prod (skipn (Z.to_nat sd) s)]).

(** [nn.Linear.forward]: the last axis must be [in_features]. *)
Definition linear (l : Linear.t) (s : shape) : result shape :=
  match s with
  | [] => Raise RuntimeError
  | _ :: _ =>
      if last s 0 =? Linear.in_features l
      then Ok (removelast s ++ [Linear.out_features l])
      else Raise RuntimeError
  end.

(** Whether [res] can be broadcast to [out] without changing [out], both
    read from the last axis backwards. *)
Fixpoint expandable_rev (res out : list Z) : bool :=
  match res, out with
  | [], _ => true
  | _ :: _, [] => false
  | r :: res', o :: out' => ((r =? o) || (r =? 1)) && expandable_rev res' out'
  end.

(** [out += residual]: in place, so [residual] must broadcast to [out]. *)
Definition iadd (out residual : shape) : result shape :=
  if expandable_rev (rev residual) (rev out) then Ok out else Raise RuntimeError.
End Shape.

#[global] Instance ShapeOps (md : mode) : Ops result shape :=
  {| F_conv3d := fun _ c s => Shape.conv3d c s;
     F_batch_norm := fun _ b s => Shape.batch_norm md b s;
     F_relu := fun _ s => Ok s;
     F_max_pool3d := fun m s => Shape.max_pool3d m s;
     F_dropout := fun _ s => Ok s;
     F_adaptive_avg_pool3d := fun a s => Shape.adaptive_avg_pool3d a s;
     torch_flatten := fun s d => Shape.flatten s d;
     F_linear := fun _ l s => Shape.linear l s;
     iadd := fun out res => Shape.iadd out res |}.

Arguments Shape.conv3d : simpl never.
Arguments Shape.batch_norm : simpl never.
Arguments Shape.max_pool3d : simpl never.
Arguments Shape.adaptive_avg_pool3d : simpl never.
Arguments Shape.flatten : simpl never.
Arguments Shape.linear : simpl never.
Arguments Shape.iadd : simpl never.

(** The backbone's forward pass on sizes. *)
Definition ResNet_shape (md : mode) (r : ResNet.t) (s : shape) : result shape :=
  ResNet.forward (ops := ShapeOps md) [] r s.


(** *** Sizes through the backbone *)

(** Length of an axis after a window of stride [s] that keeps the first
    position: a 3-wide window with padding 1, or a 1-wide one without. *)
Definition strided (s n : Z) : Z := (n - 1) / s + 1.

(** What [_verify_batch_size] asks of a size [(n, _, d, h, w)]. *)
Definition bn_ok (md : mode) (n d h w : Z) : Prop :=
  match md with
  | Train => n * d * h * w <> 1
  | Eval => True
  end.

(** The [downsample] that [_make_layer] hands to the first block. *)
Definition stage_downsample (inplanes : Z) (block : block_class) (planes stride : Z)
    : downsample_t :=
  if negb (stride =? 1) || negb (inplanes =? planes * Block.expansion block)
  then Some (conv1x1x1 inplanes (planes * Block.expansion block) stride,
             BatchNorm3d.mk (planes * Block.expansion block))
  else None.

(** Length of a spatial axis after the stem (convolution and pooling, both
    of stride 2) and the four stages (strides 1, 2, 2, 2). *)
Definition reduced (n : Z) : Z :=
  strided 2 (strided 2 (strided 2 (strided 1 (strided 2 (strided 2 n))))).

(** ** Tensors with real entries *)

Module Tensor.
(** A contiguous tensor: its size and its elements in row-major order. *)
Record t := mk { size : shape; data : list R }.

(** [x.numel()] *)
Definition numel (x : t) : nat := List.length (data x).

(** The size accounts for the elements. *)
Definition wf (x : t) : Prop :=
  Forall (fun n => 0 <= n) (size x) /\ List.length (data x) = Z.to_nat (prod (size x)).
End Tensor.

Section RealTensors.
Local Open Scope R_scope.

Definition sum (l : list R) : R := fold_right Rplus 0 l.

(** [torch.mean(x)] over all elements. *)
Definition mean (l : list R) : R := sum l / INR (List.length l).

(** [n] consecutive rows of [w] elements. *)
Fixpoint rows (n w : nat) (l : list R) : list (list R) :=
  match n with
  | O => []
  | S n' => firstn w l :: rows n' w (skipn w l)
  end.

(** [torch.norm(v, 2)] *)
Definition norm2 (v : list R) : R := sqrt (sum (map (fun x => x * x) v)).

(** The default [eps=1e-06] of [F.pairwise_distance]. *)
Definition eps : R := 1 / 1000000.

(** [F.pairwise_distance(x1, x2, p=2)] on two tensors of one size:
    [torch.norm(x1 - x2 + eps, 2, dim=-1)], the norm being taken along the
    last axis only, so that the result keeps all axes before it. *)
Definition F_pairwise_distance (x1 x2 : Tensor.t) : Tensor.t :=
  let diff := map (fun '(a, b) => a - b + eps) (combine (Tensor.data x1) (Tensor.data x2)) in
  let lead := removelast (Tensor.size x1) in
  let w := last (Tensor.size x1) 1%Z in
  Tensor.mk lead (map norm2 (rows (Z.to_nat (prod lead)) (Z.to_nat w) diff)).

(** [torch.clamp(x, min=lo)] *)
Definition clamp_min (lo : R) (x : Tensor.t) : Tensor.t :=
  Tensor.mk (Tensor.size x) (map (fun v => Rmax v lo) (Tensor.data x)).

(** [c - x] for a Python float [c] *)
Definition rsub (c : R) (x : Tensor.t) : Tensor.t :=
  Tensor.mk (Tensor.size x) (map (fun v => c - v) (Tensor.data x)).

(** [contrastive_loss] *)
Definition contrastive_loss (features_x1 features_x2 : Tensor.t) (margin : R) : R :=
  let distances := F_pairwise_distance features_x1 features_x2 in
  mean (Tensor.data (clamp_min 0 (rsub margin distances))).

(** [torch.broadcast_shapes], both sizes read from the last axis
    backwards: two lengths go together when they are equal or one of them
    is 1, and a missing axis counts as one of length 1. *)
Fixpoint broadcast_rev (a b : list Z) : option (list Z) :=
  match a, b with
  | [], _ => Some b
  | _, [] => Some a
  | x :: a', y :: b' =>
      match broadcast_rev a' b' with
      | Some r =>
          if (x =? y)%Z then Some (x :: r)
          else if (x =? 1)%Z then Some (y :: r)
          else if (y =? 1)%Z then Some (x :: r)
          else None
      | None => None
      end
  end.

Definition broadcast_shapes (a b : shape) : option shape :=
  option_map (@rev Z) (broadcast_rev (rev a) (rev b)).

(** The elements of a tensor of size [xs] expanded to the size [ss], which
    has as many axes: along an axis of length 1 the one slice is repeated,
    along any other axis slice [i] gives slice [i]. *)
Fixpoint expand_data (xs ss : list Z) (d : list R) : list R :=
  match xs, ss with
  | x :: xs', s :: ss' =>
      let inner := Z.to_nat (prod xs') in
      flat_map (fun i => expand_data xs' ss'
                  (firstn inner (skipn ((if (x =? 1)%Z then 0 else i) * inner)%nat d)))
        (seq 0 (Z.to_nat s))
  | _, _ => d
  end.

(** [torch.broadcast_to(x, ss)]: axes missing in front count as axes of
    length 1. *)
Definition broadcast_to (x : Tensor.t) (ss : shape) : Tensor.t :=
  let xs := repeat 1%Z (List.length ss - List.length (Tensor.size x))%nat ++ Tensor.size x in
  Tensor.mk ss (expand_data xs ss (Tensor.data x)).

(** [mse_loss_fn = torch.nn.MSELoss()]: [F.mse_loss] hands both tensors to
    [torch.broadcast_tensors] and returns the mean of the squared
    differences of what it gets back.  Sizes that do not go together raise
    [RuntimeError] (see [mse_loss_size]); no value is returned then, and the
    0 stands for none. *)
Definition mse_loss_fn (input target : Tensor.t) : R :=
  match broadcast_shapes (Tensor.size input) (Tensor.size target) with
  | Some s =>
      let expanded_input := broadcast_to input s in
      let expanded_target := broadcast_to target s in
      mean (map (fun '(a, b) => (a - b) * (a - b))
              (combine (Tensor.data expanded_input) (Tensor.data expanded_target)))
  | None => 0
  end.

(** The size of what [mse_loss_fn] returns: a scalar, when the sizes of the
    two tensors go together. *)
Definition mse_loss_size (input target : shape) : result shape :=
  match broadcast_shapes input target with
  | Some _ => Ok []
  | None => Raise RuntimeError
  end.

(** *** The loss as the specification words it *)

(** The Euclidean distance between two vectors. *)
Definition euclidean (a b : list R) : R :=
  sqrt (sum (map (fun '(x, y) => (x - y) * (x - y)) (combine a b))).

(** One distance per sample: between the flattened feature vectors of
    sample [i] of the two maps. *)
Definition per_sample_distances (x1 x2 : Tensor.t) : list R :=
  let batch := Z.to_nat (hd 1%Z (Tensor.size x1)) in
  let n := Z.to_nat (prod (tl (Tensor.size x1))) in
  map (fun '(a, b) => euclidean a b)
    (combine (rows batch n (Tensor.data x1)) (rows batch n (Tensor.data x2))).

(** The mean over the batch of [clamp(margin - d_i, min=0)]. *)
Definition spec_contrastive_loss (x1 x2 : Tensor.t) (margin : R) : R :=
  mean (map (fun d => Rmax (margin - d) 0) (per_sample_distances x1 x2)).

(** *** The loss read off the elements *)

(** The sum of [f i] over [i < n]. *)
Definition sum_upto (n : nat) (f : nat -> R) : R := sum (map f (seq 0 n)).

(** Element [i] of the row-major contents. *)
Definition elem (x : Tensor.t) (i : nat) : R := nth i (Tensor.data x) 0.

(** What [F.pairwise_distance] returns for row [j], rows having [w]
    elements: the 2-norm of the difference of the two rows plus [eps]. *)
Definition row_distance (w : nat) (x1 x2 : Tensor.t) (j : nat) : R :=
  sqrt (sum_upto w (fun k =>
          (elem x1 (j * w + k) - elem x2 (j * w + k) + eps)
          * (elem x1 (j * w + k) - elem x2 (j * w + k) + eps))).

(** The hinge on one distance. *)
Definition hinge (margin d : R) : R := Rmax (margin - d) 0.

(** Two maps of size [(1, 1, 1, 2, 1)]: one sample, two rows of one
    element; the second rows agree, the first are 2 apart. *)
Definition zeros_2 : Tensor.t := Tensor.mk [1; 1; 1; 2; 1]%Z [0; 0].
Definition two_zero : Tensor.t := Tensor.mk [1; 1; 1; 2; 1]%Z [2; 0].

(** A column and a row with the same two entries. *)
Definition column_01 : Tensor.t := Tensor.mk [2; 1]%Z [0; 1].
Definition row_01 : Tensor.t := Tensor.mk [1; 2]%Z [0; 1].

End RealTensors.

(** ** Value-level semantics: what a forward pass computes *)

(** A computation that reads and writes a store. *)
Definition State (S A : Type) : Type := S -> A * S.

#[global] Instance Monad_State (S : Type) : Monad (State S) :=
  {| ret := fun _ a s => (a, s);
     bind := fun _ _ m f s => let (a, s') := m s in f a s' |}.

(** The numerical kernels of the tensor library, over a store holding the
    parameters and buffers of every named module and the state of the
    random generator.  Only the normalisation in training mode (it updates
    the running statistics) and the drawing of random numbers write it. *)
Class Backend (store : Type) := {
  conv3d_k : key -> Conv3d.t -> store -> Tensor.t -> Tensor.t;
  batch_norm_train : key -> BatchNorm3d.t -> Tensor.t -> store -> Tensor.t * store;
  batch_norm_eval : key -> BatchNorm3d.t -> store -> Tensor.t -> Tensor.t;
  max_pool3d_k : MaxPool3d.t -> Tensor.t -> Tensor.t;
  adaptive_avg_pool3d_k : AdaptiveAvgPool3d.t -> Tensor.t -> Tensor.t;
  linear_k : key -> Linear.t -> store -> Tensor.t -> Tensor.t;
  (** [x.expand(size)]: broadcasting *)
  expand : Tensor.t -> shape -> Tensor.t;
  (** [n] draws, each [true] with probability [q] *)
  bernoulli : nat -> Q -> store -> list bool * store
}.

Module Value.
Section Kernels.
Context {store : Type} {K : Backend store}.
Local Open Scope R_scope.

(** [F.relu]: negative entries become zero.  [inplace=True] overwrites the
    module's input, which is always a tensor the pass has just produced and
    holds no other reference to, so the value alone is modelled. *)
Definition relu (x : Tensor.t) : Tensor.t :=
  Tensor.mk (Tensor.size x) (map (fun v => Rmax 0 v) (Tensor.data x)).

(** [input * noise] with [noise] drawn as 0 or 1 and divided by [1 - p]. *)
Definition mul_noise (p : Q) (x : list R) (noise : list bool) : list R :=
  map (fun vk : R * bool => fst vk * ((if snd vk then 1 else 0) / (1 - Q2R p)))
    (combine x noise).

(** The noise of feature dropout has size [(N, C, 1, ..., 1)]: one draw per
    sample and channel, broadcast over the [vol] positions of the channel. *)
Definition feature_noise (vol : nat) (noise : list bool) : list bool :=
  flat_map (fun keep => repeat keep vol) noise.

(** [nn.Dropout.forward] and [nn.Dropout3d.forward] (ATen's
    [_dropout_impl]): the input itself unless training with [p <> 0]. *)
Definition dropout (md : mode) (d : Dropout) (x : Tensor.t) : State store Tensor.t :=
  match md with
  | Eval => ret x
  | Train =>
      let p := dropout_p d in
      if Qeq_bool p 0 then ret x
      else if Nat.eqb (Tensor.numel x) 0 then ret x
      else if Qeq_bool p 1
      then ret (Tensor.mk (Tensor.size x) (map (fun v => v * 0) (Tensor.data x)))
      else
        match d with
        | nn_Dropout _ =>
            noise <- bernoulli (Tensor.numel x) (1 - p)%Q ;;
            ret (Tensor.mk (Tensor.size x) (mul_noise p (Tensor.data x) noise))
        | nn_Dropout3d _ =>
            let channels := Z.to_nat (prod (firstn 2 (Tensor.size x))) in
            let vol := Z.to_nat (prod (skipn 2 (Tensor.size x))) in
            noise <- bernoulli channels (1 - p)%Q ;;
            ret (Tensor.mk (Tensor.size x)
                   (mul_noise p (Tensor.data x) (feature_noise vol noise)))
        end
  end.

Definition batch_norm (md : mode) (k : key) (b : BatchNorm3d.t) (x : Tensor.t)
    : State store Tensor.t :=
  match md with
  | Train => batch_norm_train k b x
  | Eval => fun st => (batch_norm_eval k b st x, st)
  end.

(** [torch.flatten]: the same elements under the merged size. *)
Definition flatten (x : Tensor.t) (start_dim : Z) : Tensor.t :=
  match Shape.flatten (Tensor.size x) start_dim with
  | Ok s => Tensor.mk s (Tensor.data x)
  | Raise _ => x
  end.

(** [out += residual] *)
Definition iadd (out residual : Tensor.t) : Tensor.t :=
  let residual :=
    if list_eq_dec Z.eq_dec (Tensor.size residual) (Tensor.size out)
    then residual else expand residual (Tensor.size out) in
  Tensor.mk (Tensor.size out)
    (map (fun '(a, b) => a + b) (combine (Tensor.data out) (Tensor.data residual))).
End Kernels.
End Value.

#[global] Instance ValueOps {store : Type} {K : Backend store} (md : mode)
    : Ops (State store) Tensor.t :=
  {| F_conv3d := fun k c x st => (conv3d_k k c st x, st);
     F_batch_norm := fun k b x => Value.batch_norm md k b x;
     F_relu := fun _ x st => (Value.relu x, st);
     F_max_pool3d := fun m x st => (max_pool3d_k m x, st);
     F_dropout := fun d x => Value.dropout md d x;
     F_adaptive_avg_pool3d := fun a x st => (adaptive_avg_pool3d_k a x, st);
     torch_flatten := fun x d st => (Value.flatten x d, st);
     F_linear := fun k l x st => (linear_k k l st x, st);
     iadd := fun out res st => (Value.iadd out res, st) |}.

(** ** The training cell *)

Section TrainingStep.
Context {store : Type} {K : Backend store}.
Local Open Scope R_scope.

(** The forward pass and the losses of the last cell, after
    [model.train()]: the total loss handed to [backward()] and printed. *)
Definition total_loss (model : ModelComb.t) (x1 x2 y1 y2 : Tensor.t) : State store R :=
  '(features_x1, features_x2, reg0, reg1) <-
    ModelComb.forward (ops := ValueOps Train) model x1 x2 ;;
  let contr_loss := contrastive_loss features_x1 features_x2 1 in
  let mse_loss := mse_loss_fn reg0 y1 in
  let total_loss := contr_loss + mse_loss in
  ret total_loss.
End TrainingStep.

(** *** A store for running examples

    The random generator is a list of outcomes drawn in advance; the other
    kernels keep only what the examples need. *)
#[global] Instance ListBackend : Backend (list bool) :=
  {| conv3d_k := fun _ _ _ x => x;
     batch_norm_train := fun _ _ x st => (x, st);
     batch_norm_eval := fun _ _ _ x => x;
     max_pool3d_k := fun _ x => x;
     adaptive_avg_pool3d_k := fun _ x => x;
     linear_k := fun _ _ _ x => x;
     expand := fun x _ => x;
     bernoulli := fun n _ st => (firstn n st, skipn n st) |}.

(** A computation that leaves the store as it found it. *)
Definition preserves {S A : Type} (c : State S A) : Prop :=
  forall st, snd (c st) = st.

(** The head of the backbone: what [ResNet.forward] does after the stages. *)
Definition head {M T} {Mon : Monad M} {ops : Ops M T} (k : key) (self : ResNet.t) (x : T)
    : M T :=
  x <- F_adaptive_avg_pool3d (ResNet.avgpool self) x ;;
  x <- torch_flatten x 1 ;;
  x <- F_linear (sub k "fc") (ResNet.fc self) x ;;
  ret x.

(** One sample with one channel of two voxels, both 1. *)
Definition two_voxels : Tensor.t := Tensor.mk [1; 1; 1; 1; 2] [1%R; 1%R].

(** ** Further definitions: consistency of a built backbone, the data *)

(** The channel counts inside a block agree from each convolution to the
    normalisation and the convolution after it. *)
Definition block_channels_ok (b : Block) : Prop :=
  match b with
  | Basic b =>
      Conv3d.out_channels (BasicBlock.conv1 b) = BatchNorm3d.num_features (BasicBlock.bn1 b)
      /\ Conv3d.out_channels (BasicBlock.conv1 b) = Conv3d.in_channels (BasicBlock.conv2 b)
      /\ Conv3d.out_channels (BasicBlock.conv2 b) = BatchNorm3d.num_features (BasicBlock.bn2 b)
  | Bottle b =>
      Conv3d.out_channels (Bottleneck.conv1 b) = BatchNorm3d.num_features (Bottleneck.bn1 b)
      /\ Conv3d.out_channels (Bottleneck.conv1 b) = Conv3d.in_channels (Bottleneck.conv2 b)
      /\ Conv3d.out_channels (Bottleneck.conv2 b) = BatchNorm3d.num_features (Bottleneck.bn2 b)
      /\ Conv3d.out_channels (Bottleneck.conv2 b) = Conv3d.in_channels (Bottleneck.conv3 b)
      /\ Conv3d.out_channels (Bottleneck.conv3 b) = BatchNorm3d.num_features (Bottleneck.bn3 b)
  end.

(** The shortcut of a block fits its main path: without projection the
    block keeps channel count and resolution; a projection maps the
    block's input channels to its output channels with the block's stride. *)
Definition shortcut_ok (b : Block) : Prop :=
  match Block.downsample b with
  | None => Block.stride b = 1 /\ Block.in_planes b = Block.out_planes b
  | Some (c, bn) =>
      Conv3d.in_channels c = Block.in_planes b
      /\ Conv3d.out_channels c = Block.out_planes b
      /\ BatchNorm3d.num_features bn = Block.out_planes b
      /\ Conv3d.stride c = _triple (Block.stride b)
  end.

(** Blocks in sequence, from [cin] input channels to [cout] output
    channels: each is consistent and takes what the one before it gives. *)
Fixpoint chained (cin : Z) (blocks : list Block) (cout : Z) : Prop :=
  match blocks with
  | [] => cin = cout
  | b :: rest =>
      Block.in_planes b = cin /\ block_channels_ok b /\ shortcut_ok b
      /\ chained (Block.out_planes b) rest cout
  end.

(** The blocks of the four stages in the order the forward pass runs them. *)
Definition all_blocks (r : ResNet.t) : list Block :=
  ResNet.layer1 r ++ ResNet.layer2 r ++ ResNet.layer3 r ++ ResNet.layer4 r.

(** [generate_synthetic_mri_data], on sizes: the sizes of [x1], [x2], [y1]
    and [y2]; their entries are drawn by [torch.randn]. *)
Definition generate_synthetic_mri_data (batch_size : Z) (image_shape : list Z)
    : shape * shape * shape * shape :=
  let x1 := batch_size :: image_shape in
  let x2 := batch_size :: image_shape in
  let y1 := [batch_size; 1] in
  let y2 := [batch_size; 1] in
  (x1, x2, y1, y2).

(** The default [image_shape=(1, 64, 64, 64)]. *)
Definition default_image_shape : list Z := [1; 64; 64; 64].

(** Whatever the first computation returns, the second returns too. *)
Definition ok_implies {A : Type} (c1 c2 : result A) : Prop :=
  forall a, c1 = Ok a -> c2 = Ok a.

(** Every entry of the tensor is 0 or more. *)
Definition nonneg (x : Tensor.t) : Prop := Forall (fun v => (0 <= v)%R) (Tensor.data x).


(** Hyper-parameters that the constructors of [torch.nn] called by
    [ResNet.__init__] accept without complaint: a drop-out rate in [0, 1],
    at least one class and at least one input channel. *)
Definition accepted (num_classes : Z) (dropout_rate : Q) (in_channels : Z) : Prop :=
  (0 <= dropout_rate <= 1)%Q /\ 1 <= num_classes /\ 1 <= in_channels.

(** * Proofs *)

(** ** Sizes through the backbone *)

Lemma strided_1 n : strided 1 n = n.
Proof. unfold strided. rewrite Z.div_1_r. lia. Qed.

Lemma strided_pos s n : 1 <= s -> 1 <= n -> 1 <= strided s n.
Proof.
  intros Hs Hn. unfold strided.
  assert (0 <= (n - 1) / s) by (apply Z.div_pos; lia). lia.
Qed.

Lemma strided_one s : 1 <= s -> strided s 1 = 1.
Proof. intros Hs. unfold strided. replace (1 - 1) with 0 by lia. now rewrite Z.div_0_l by lia. Qed.

Lemma strided_2_even m : strided 2 (2 * m) = m.
Proof.
  unfold strided. replace (2 * m - 1) with (1 + (m - 1) * 2) by lia.
  rewrite Z.div_add by lia. change (1 / 2) with 0. lia.
Qed.

Lemma prod_one n d h w :
  1 <= d -> 1 <= h -> 1 <= w -> n * d * h * w = 1 -> n = 1 /\ d = 1 /\ h = 1 /\ w = 1.
Proof.
  intros Hd Hh Hw E.
  apply Z.eq_mul_1_nonneg' in E; [|lia]. destruct E as [E ->].
  apply Z.eq_mul_1_nonneg' in E; [|lia]. destruct E as [E ->].
  apply Z.eq_mul_1_nonneg' in E; [|lia]. destruct E as [-> ->].
  repeat split.
Qed.

(** A size rejected after the stride was already rejected before it. *)
Lemma bn_ok_strided md s n d h w :
  1 <= s -> 1 <= d -> 1 <= h -> 1 <= w ->
  bn_ok md n (strided s d) (strided s h) (strided s w) -> bn_ok md n d h w.
Proof.
  intros Hs Hd Hh Hw. destruct md; simpl; [|trivial].
  intros Hne E. apply Hne.
  destruct (prod_one n d h w Hd Hh Hw E) as (-> & -> & -> & ->).
  now rewrite strided_one by lia.
Qed.

Lemma conv_out_3_1 s n : 1 <= s -> 1 <= n -> Shape.conv_out n 3 s 1 = Ok (strided s n).
Proof.
  intros Hs Hn. unfold Shape.conv_out, strided.
  destruct (Z.leb_spec s 0); [lia|]. destruct (Z.ltb_spec (n + 2 * 1) 3); [lia|].
  do 2 f_equal. f_equal. lia.
Qed.

Lemma conv_out_1_0 s n : 1 <= s -> 1 <= n -> Shape.conv_out n 1 s 0 = Ok (strided s n).
Proof.
  intros Hs Hn. unfold Shape.conv_out, strided.
  destruct (Z.leb_spec s 0); [lia|]. destruct (Z.ltb_spec (n + 2 * 0) 1); [lia|].
  do 2 f_equal. f_equal. lia.
Qed.

Lemma conv_out_7_3 n : 1 <= n -> Shape.conv_out n 7 2 3 = Ok (strided 2 n).
Proof.
  intros Hn. unfold Shape.conv_out, strided.
  destruct (Z.leb_spec 2 0); [lia|]. destruct (Z.ltb_spec (n + 2 * 3) 7); [lia|].
  do 2 f_equal. f_equal. lia.
Qed.

Lemma pool_out_3_2_1 n : 1 <= n -> Shape.pool_out n 3 2 1 = Ok (strided 2 n).
Proof.
  intros Hn. unfold Shape.pool_out.
  change (3 <=? 0) with false. change (2 <=? 0) with false.
  change (1 <? 0) with false. change (3 / 2 <? 1) with false.
  destruct (Z.leb_spec n 0); [lia|]. simpl orb. cbv zeta.
  replace ((n + 2 * 1 - 3) / 2 + 1) with (strided 2 n) by (unfold strided; do 2 f_equal; lia).
  pose proof (strided_pos 2 n ltac:(lia) Hn).
  destruct (Z.ltb_spec (strided 2 n) 1); [lia | reflexivity].
Qed.

Lemma conv_channels_some c ci : ci <> 0 -> Shape.conv_channels c ci = Conv3d.out_channels c.
Proof. intros H. unfold Shape.conv_channels. destruct (Z.eqb_spec ci 0); [contradiction | reflexivity]. Qed.

Lemma conv3x3x3_shape ci co s n d h w :
  ci <> 0 -> 1 <= s -> 1 <= d -> 1 <= h -> 1 <= w ->
  Shape.conv3d (conv3x3x3 ci co s) [n; ci; d; h; w]
  = Ok [n; co; strided s d; strided s h; strided s w].
Proof.
  intros. unfold Shape.conv3d, conv3x3x3, Shape.conv_out3, _triple. cbn [Conv3d.in_channels Conv3d.out_channels Conv3d.kernel_size Conv3d.stride Conv3d.padding].
  rewrite Z.eqb_refl, conv_channels_some, !conv_out_3_1 by assumption. reflexivity.
Qed.

Lemma conv1x1x1_shape ci co s n d h w :
  ci <> 0 -> 1 <= s -> 1 <= d -> 1 <= h -> 1 <= w ->
  Shape.conv3d (conv1x1x1 ci co s) [n; ci; d; h; w]
  = Ok [n; co; strided s d; strided s h; strided s w].
Proof.
  intros. unfold Shape.conv3d, conv1x1x1, Shape.conv_out3, _triple. cbn [Conv3d.in_channels Conv3d.out_channels Conv3d.kernel_size Conv3d.stride Conv3d.padding].
  rewrite Z.eqb_refl, conv_channels_some, !conv_out_1_0 by assumption. reflexivity.
Qed.

Lemma batch_norm_shape md c n d h w :
  bn_ok md n d h w ->
  Shape.batch_norm md (BatchNorm3d.mk c) [n; c; d; h; w] = Ok [n; c; d; h; w].
Proof.
  intros Hok. unfold Shape.batch_norm. cbn [BatchNorm3d.num_features].
  rewrite Z.eqb_refl. destruct (n * c * d * h * w =? 0); (destruct md; [|reflexivity]);
    simpl in Hok; (destruct (Z.eqb_spec (n * d * h * w) 1); [contradiction | reflexivity]).
Qed.

Lemma expandable_rev_refl l : Shape.expandable_rev l l = true.
Proof. induction l as [|a l IH]; simpl; [reflexivity|]. now rewrite Z.eqb_refl, IH. Qed.

Lemma iadd_same s : Shape.iadd s s = Ok s.
Proof. unfold Shape.iadd. now rewrite expandable_rev_refl. Qed.

Ltac shape_step :=
  first
    [ rewrite conv3x3x3_shape by (assumption || lia)
    | rewrite conv1x1x1_shape by (assumption || lia)
    | rewrite batch_norm_shape by assumption
    | rewrite iadd_same
    | rewrite !strided_1 ];
  cbn [bind ret Monad_result].

Ltac use_shortcut Hsc :=
  lazymatch type of Hsc with
  | _ = ?r =>
      lazymatch goal with
      | |- match ?X with _ => _ end = _ => replace X with r by (symmetry; exact Hsc)
      end
  end.

(** The shortcut of the first block of a stage has the size of the block's
    main path, with or without projection. *)
Lemma shortcut_shape md k block inplanes planes s n d h w :
  1 <= inplanes ->
  1 <= s -> 1 <= d -> 1 <= h -> 1 <= w ->
  bn_ok md n (strided s d) (strided s h) (strided s w) ->
  match stage_downsample inplanes block planes s with
  | Some ds => downsample_forward (ops := ShapeOps md) k ds [n; inplanes; d; h; w]
  | None => Ok [n; inplanes; d; h; w]
  end
  = Ok [n; planes * Block.expansion block; strided s d; strided s h; strided s w].
Proof.
  intros Hin1 Hs Hd Hh Hw Hbn. unfold stage_downsample.
  destruct (Z.eqb_spec s 1) as [->|Hs1];
    destruct (Z.eqb_spec inplanes (planes * Block.expansion block)) as [->|Hin];
    cbn [negb orb downsample_forward fst snd bind ret Monad_result F_conv3d F_batch_norm ShapeOps];
    repeat shape_step; try reflexivity.
  all: rewrite !strided_1 in Hbn; repeat shape_step; reflexivity.
Qed.

Lemma first_block_shape md k block inplanes planes s p n d h w :
  1 <= inplanes -> 1 <= planes ->
  1 <= s -> 1 <= d -> 1 <= h -> 1 <= w ->
  bn_ok md n (strided s d) (strided s h) (strided s w) ->
  Block.forward (ops := ShapeOps md) k
    (Block.call block inplanes planes s (stage_downsample inplanes block planes s) p)
    [n; inplanes; d; h; w]
  = Ok [n; planes * Block.expansion block; strided s d; strided s h; strided s w].
Proof.
  intros Hin1 Hpl1 Hs Hd Hh Hw Hbn.
  pose proof (bn_ok_strided md s n d h w Hs Hd Hh Hw Hbn) as Hbn0.
  pose proof (strided_pos s d Hs Hd). pose proof (strided_pos s h Hs Hh).
  pose proof (strided_pos s w Hs Hw).
  pose proof (shortcut_shape md (sub k "downsample") block inplanes planes s n d h w
                Hin1 Hs Hd Hh Hw Hbn) as Hsc.
  destruct block; cbn [Block.call Block.forward Block.expansion] in *.
  - unfold BasicBlock.forward, BasicBlock.init.
    cbn -[downsample_forward stage_downsample]. repeat shape_step.
    unfold BasicBlock.expansion in Hsc. rewrite Z.mul_1_r in Hsc.
    use_shortcut Hsc. cbn [bind ret Monad_result]. repeat shape_step. now rewrite Z.mul_1_r.
  - unfold Bottleneck.forward, Bottleneck.init.
    cbn -[downsample_forward stage_downsample]. repeat shape_step.
    use_shortcut Hsc. cbn [bind ret Monad_result]. repeat shape_step. reflexivity.
Qed.

Lemma stage_downsample_same block planes :
  stage_downsample (planes * Block.expansion block) block planes 1 = None.
Proof. unfold stage_downsample. now rewrite !Z.eqb_refl. Qed.

Lemma layer_forward_from_app {M T} {Mon : Monad M} {ops : Ops M T}
    (k : key) (b : Block) (rest : ResNet.layer) (i : nat) (x : T) :
  ResNet.layer_forward_from k i (b :: rest) x
  = bind (Block.forward (item k i) b x) (ResNet.layer_forward_from k (S i) rest).
Proof. reflexivity. Qed.

Lemma planes_expansion_pos block planes : 1 <= planes -> 1 <= planes * Block.expansion block.
Proof.
  intros H. destruct block;
    unfold Block.expansion, BasicBlock.expansion, Bottleneck.expansion; lia.
Qed.

(** The blocks after the first keep the size. *)
Lemma more_blocks_shape md k block planes p n d h w m :
  1 <= planes ->
  1 <= d -> 1 <= h -> 1 <= w -> bn_ok md n d h w ->
  forall i,
    ResNet.layer_forward_from (ops := ShapeOps md) k i
      (ResNet.more_blocks m block (planes * Block.expansion block) planes p)
      [n; planes * Block.expansion block; d; h; w]
    = Ok [n; planes * Block.expansion block; d; h; w].
Proof.
  intros Hpl1 Hd Hh Hw Hbn. pose proof (planes_expansion_pos block planes Hpl1) as Hpe.
  induction m as [|m IH]; intros i; [reflexivity|].
  cbn [ResNet.more_blocks]. rewrite layer_forward_from_app.
  rewrite <- (stage_downsample_same block planes) at 1.
  rewrite first_block_shape; rewrite ?strided_1; try assumption; try lia.
  cbn [bind Monad_result]. apply IH.
Qed.

(** A stage built by [_make_layer] maps [(n, inplanes, d, h, w)] to
    [(n, planes * expansion, ...)] with each spatial axis strided once. *)
Lemma make_layer_shape md k inplanes block planes blocks s p n d h w :
  1 <= inplanes -> 1 <= planes ->
  1 <= s -> 1 <= d -> 1 <= h -> 1 <= w ->
  bn_ok md n (strided s d) (strided s h) (strided s w) ->
  ResNet.layer_forward (ops := ShapeOps md) k
    (fst (ResNet._make_layer inplanes block planes blocks s p)) [n; inplanes; d; h; w]
  = Ok [n; planes * Block.expansion block; strided s d; strided s h; strided s w]
  /\ snd (ResNet._make_layer inplanes block planes blocks s p) = planes * Block.expansion block.
Proof.
  intros Hin1 Hpl1 Hs Hd Hh Hw Hbn. split; [|reflexivity].
  unfold ResNet._make_layer, ResNet.layer_forward. cbn [fst app].
  rewrite layer_forward_from_app.
  change (if negb (s =? 1) || negb (inplanes =? planes * Block.expansion block)
          then _ else None) with (stage_downsample inplanes block planes s).
  rewrite first_block_shape by assumption. cbn [bind Monad_result].
  apply more_blocks_shape; auto using strided_pos.
Qed.

Lemma reduced_pos n : 1 <= n -> 1 <= reduced n.
Proof.
  intros Hn. unfold reduced.
  apply (@strided_pos 2), (@strided_pos 2), (@strided_pos 2), (@strided_pos 1),
    (@strided_pos 2), (@strided_pos 2); lia.
Qed.

Lemma reduced_32 n : n mod 32 = 0 -> reduced n = n / 32.
Proof.
  intros Hm. unfold reduced. rewrite strided_1.
  pose proof (Z.div_mod n 32 ltac:(lia)) as E. rewrite Hm, Z.add_0_r in E.
  set (q := n / 32) in *. rewrite E.
  replace (32 * q) with (2 * (16 * q)) by lia. rewrite strided_2_even.
  replace (16 * q) with (2 * (8 * q)) by lia. rewrite strided_2_even.
  replace (8 * q) with (2 * (4 * q)) by lia. rewrite strided_2_even.
  replace (4 * q) with (2 * (2 * q)) by lia. rewrite strided_2_even.
  apply strided_2_even.
Qed.

Lemma stem_conv_shape cin n d h w :
  cin <> 0 ->
  1 <= d -> 1 <= h -> 1 <= w ->
  Shape.conv3d (Conv3d.mk cin 64 (7, 7, 7) (2, 2, 2) (3, 3, 3)) [n; cin; d; h; w]
  = Ok [n; 64; strided 2 d; strided 2 h; strided 2 w].
Proof.
  intros. unfold Shape.conv3d, Shape.conv_out3.
  cbn [Conv3d.in_channels Conv3d.out_channels Conv3d.kernel_size Conv3d.stride Conv3d.padding].
  rewrite Z.eqb_refl, conv_channels_some, !conv_out_7_3 by assumption. reflexivity.
Qed.

Lemma stem_pool_shape n c d h w :
  0 < c -> 1 <= d -> 1 <= h -> 1 <= w ->
  Shape.max_pool3d (MaxPool3d.mk 3 2 1) [n; c; d; h; w]
  = Ok [n; c; strided 2 d; strided 2 h; strided 2 w].
Proof.
  intros Hc ? ? ?. unfold Shape.max_pool3d, Shape.pool_out3.
  cbn [MaxPool3d.kernel_size MaxPool3d.stride MaxPool3d.padding].
  destruct (Z.leb_spec c 0); [lia|].
  rewrite !pool_out_3_2_1 by assumption. reflexivity.
Qed.

Lemma expansion_pos block : 0 < Block.expansion block.
Proof. destruct block; reflexivity. Qed.

Lemma flatten_pooled n c : Shape.flatten [n; c; 1; 1; 1] 1 = Ok [n; c].
Proof.
  unfold Shape.flatten. cbn -[Z.mul].
  change (Pos.to_nat 1) with 1%nat. cbn [firstn skipn app fold_right].
  now rewrite !Z.mul_1_r.
Qed.

Lemma linear_shape cin cout n :
  Shape.linear (Linear.mk cin cout) [n; cin] = Ok [n; cout].
Proof.
  unfold Shape.linear. cbn [last removelast Linear.in_features Linear.out_features app].
  now rewrite Z.eqb_refl.
Qed.

Lemma avgpool_shape n c d h w :
  0 < c -> 1 <= d -> 1 <= h -> 1 <= w ->
  Shape.adaptive_avg_pool3d (AdaptiveAvgPool3d.mk (1, 1, 1)) [n; c; d; h; w]
  = Ok [n; c; 1; 1; 1].
Proof.
  intros Hc Hd Hh Hw. reflexivity.
Qed.

Lemma head_shape block num_classes n d h w :
  1 <= d -> 1 <= h -> 1 <= w ->
  (x <- Shape.adaptive_avg_pool3d (AdaptiveAvgPool3d.mk (1, 1, 1))
         [n; 512 * Block.expansion block; d; h; w] ;;
   x <- Shape.flatten x 1 ;;
   x <- Shape.linear (Linear.mk (512 * Block.expansion block) num_classes) x ;;
   ret x)
  = Ok [n; num_classes].
Proof.
  intros Hd Hh Hw. pose proof (expansion_pos block) as He.
  rewrite avgpool_shape by (assumption || lia). cbn [bind ret Monad_result].
  rewrite flatten_pooled. cbn [bind ret Monad_result].
  rewrite linear_shape. reflexivity.
Qed.

(** The backbone on any input with non-empty spatial axes: no exception in
    inference mode; when training, none unless the last normalisations see a
    single value per channel. *)
Lemma ResNet_shape_ok md block layers num_classes p cin r n D H W :
  ResNet.init block layers num_classes p cin = Some r ->
  1 <= cin ->
  1 <= D -> 1 <= H -> 1 <= W ->
  bn_ok md n (reduced D) (reduced H) (reduced W) ->
  ResNet_shape md r [n; cin; D; H; W] = Ok [n; num_classes].
Proof.
  intros Hr Hcin HD HH HW Hbn. pose proof (expansion_pos block) as Hexp. unfold ResNet.init in Hr.
  destruct (nth_error layers 0) as [l0|]; [|discriminate].
  destruct (nth_error layers 1) as [l1|]; [|discriminate].
  destruct (nth_error layers 2) as [l2|]; [|discriminate].
  destruct (nth_error layers 3) as [l3|]; [|discriminate].
  set (d1 := strided 2 D) in *. set (h1 := strided 2 H) in *. set (w1 := strided 2 W) in *.
  set (d2 := strided 2 d1) in *. set (h2 := strided 2 h1) in *. set (w2 := strided 2 w1) in *.
  set (d3 := strided 1 d2) in *. set (h3 := strided 1 h2) in *. set (w3 := strided 1 w2) in *.
  set (d4 := strided 2 d3) in *. set (h4 := strided 2 h3) in *. set (w4 := strided 2 w3) in *.
  set (d5 := strided 2 d4) in *. set (h5 := strided 2 h4) in *. set (w5 := strided 2 w4) in *.
  assert (P1 : 1 <= d1 /\ 1 <= h1 /\ 1 <= w1) by (repeat split; apply strided_pos; lia).
  assert (P2 : 1 <= d2 /\ 1 <= h2 /\ 1 <= w2) by (repeat split; apply strided_pos; lia).
  assert (P3 : 1 <= d3 /\ 1 <= h3 /\ 1 <= w3) by (repeat split; apply strided_pos; lia).
  assert (P4 : 1 <= d4 /\ 1 <= h4 /\ 1 <= w4) by (repeat split; apply strided_pos; lia).
  assert (P5 : 1 <= d5 /\ 1 <= h5 /\ 1 <= w5) by (repeat split; apply strided_pos; lia).
  destruct P1 as (? & ? & ?), P2 as (? & ? & ?), P3 as (? & ? & ?),
    P4 as (? & ? & ?), P5 as (? & ? & ?).
  assert (B5 : bn_ok md n d5 h5 w5) by (apply (bn_ok_strided md 2); auto; lia).
  assert (B4 : bn_ok md n d4 h4 w4) by (apply (bn_ok_strided md 2); auto; lia).
  assert (B3 : bn_ok md n d3 h3 w3) by (apply (bn_ok_strided md 2); auto; lia).
  assert (B2 : bn_ok md n d2 h2 w2) by (apply (bn_ok_strided md 1); auto; lia).
  assert (B1 : bn_ok md n d1 h1 w1) by (apply (bn_ok_strided md 2); auto; lia).
  destruct (make_layer_shape md [Attr "layer1"] 64 block 64 l0 1 p n d2 h2 w2) as [F1 S1]; auto; try lia.
  destruct (ResNet._make_layer 64 block 64 l0 1 p) as [layer1 ip1]. cbn [fst snd] in F1, S1. subst ip1.
  destruct (make_layer_shape md [Attr "layer2"] (64 * Block.expansion block) block 128 l1 2 p n d3 h3 w3) as [F2 S2]; auto; try lia.
  destruct (ResNet._make_layer (64 * Block.expansion block) block 128 l1 2 p) as [layer2 ip2]. cbn [fst snd] in F2, S2. subst ip2.
  destruct (make_layer_shape md [Attr "layer3"] (128 * Block.expansion block) block 256 l2 2 p n d4 h4 w4) as [F3 S3]; auto; try lia.
  destruct (ResNet._make_layer (128 * Block.expansion block) block 256 l2 2 p) as [layer3 ip3]. cbn [fst snd] in F3, S3. subst ip3.
  destruct (make_layer_shape md [Attr "layer4"] (256 * Block.expansion block) block 512 l3 2 p n d5 h5 w5) as [F4 S4]; auto; try lia.
  destruct (ResNet._make_layer (256 * Block.expansion block) block 512 l3 2 p) as [layer4 ip4]. cbn [fst snd] in F4, S4. subst ip4.
  injection Hr as <-. unfold reduced in Hbn.
  unfold ResNet_shape, ResNet.forward.
  cbn [ResNet.conv1 ResNet.bn1 ResNet.relu ResNet.maxpool ResNet.layer1 ResNet.layer2
       ResNet.layer3 ResNet.layer4 ResNet.avgpool ResNet.fc
       F_conv3d F_batch_norm F_relu F_max_pool3d F_adaptive_avg_pool3d torch_flatten
       F_linear ShapeOps sub app].
  rewrite stem_conv_shape by (assumption || lia). cbn [bind Monad_result].
  fold d1 h1 w1. rewrite batch_norm_shape by assumption. cbn [bind Monad_result].
  rewrite stem_pool_shape by (assumption || lia). cbn [bind Monad_result].
  fold d2 h2 w2. rewrite F1. cbn [bind Monad_result].
  fold d3 h3 w3. rewrite F2. cbn [bind Monad_result].
  fold d4 h4 w4. rewrite F3. cbn [bind Monad_result].
  fold d5 h5 w5. rewrite F4. cbn [bind Monad_result].
  apply head_shape; apply strided_pos; (assumption || lia).
Qed.


(** C5, as amended: for every backbone built for one input channel and every
    input of size [(batch, 1, D, H, W)] with [D], [H], [W] each at least 32
    and divisible by 32, the forward pass raises nothing and returns a
    tensor of size [(batch, num_classes)] -- in inference mode always, and in
    training mode provided [batch * (D/32) * (H/32) * (W/32)] is not 1. *)
Theorem ResNet_forward_shape md block layers num_classes p r batch D H W :
  ResNet.init block layers num_classes p 1 = Some r ->
  32 <= D -> D mod 32 = 0 ->
  32 <= H -> H mod 32 = 0 ->
  32 <= W -> W mod 32 = 0 ->
  (md = Train -> batch * (D / 32) * (H / 32) * (W / 32) <> 1) ->
  ResNet_shape md r [batch; 1; D; H; W] = Ok [batch; num_classes].
Proof.
  intros Hr HD HDm HH HHm HW HWm Htrain.
  apply (ResNet_shape_ok md block layers num_classes p 1 r); try assumption; try lia.
  rewrite !reduced_32 by assumption.
  destruct md; simpl; [auto | trivial].
Qed.

(** The notebook's configuration run as in the notebook: training mode, a
    batch of 8 volumes of 64 x 64 x 64. *)
Lemma ResNet_forward_shape_witness :
  exists r,
    resnet101 (mk_kwargs (Some 1) None (Some 1)) = Some r
    /\ ResNet_shape Train r [8; 1; 64; 64; 64] = Ok [8; 1].
Proof.
  eexists. split; [reflexivity|].
  apply (ResNet_forward_shape Train Bottleneck_cls [3; 4; 23; 3] 1 0%Q _ 8 64 64 64);
    try reflexivity; lia.
Defined.

(** C5 as stated fails: a single training volume of 32 x 32 x 32 reaches
    the second normalisation of the last stage's first block with size
    [(1, 512, 1, 1, 1)], one value per channel, and [ValueError] is raised. *)
Lemma ResNet_forward_raises_when_training :
  exists r,
    resnet101 (mk_kwargs (Some 1) None (Some 1)) = Some r
    /\ 32 <= 32 /\ 32 mod 32 = 0
    /\ ResNet_shape Train r [1; 1; 32; 32; 32] = Raise ValueError.
Proof.
  eexists. split; [reflexivity|]. split; [lia|]. split; [reflexivity|].
  vm_compute. reflexivity.
Qed.

(** ** The layer-construction routine *)

Lemma more_blocks_length n block inplanes planes p :
  List.length (ResNet.more_blocks n block inplanes planes p) = n.
Proof. induction n as [|n IH]; simpl; [reflexivity | now rewrite IH]. Qed.

Lemma call_fields block inplanes planes s ds p :
  Block.stride (Block.call block inplanes planes s ds p) = s
  /\ Block.downsample (Block.call block inplanes planes s ds p) = ds
  /\ Block.in_planes (Block.call block inplanes planes s ds p) = inplanes
  /\ Block.out_planes (Block.call block inplanes planes s ds p) = planes * Block.expansion block
  /\ dropout_p (Block.dropout (Block.call block inplanes planes s ds p)) = p.
Proof. destruct block; cbn; repeat split; unfold BasicBlock.expansion; lia. Qed.

Lemma more_blocks_identity n block inplanes planes p :
  Forall (fun b => Block.stride b = 1 /\ Block.downsample b = None
                   /\ Block.in_planes b = inplanes)
    (ResNet.more_blocks n block inplanes planes p).
Proof.
  induction n as [|n IH]; simpl; constructor; [|exact IH].
  destruct (call_fields block inplanes planes 1 None p) as (? & ? & ? & _). auto.
Qed.

Lemma stage_downsample_spec inplanes block planes stride :
  (stage_downsample inplanes block planes stride
   = Some (conv1x1x1 inplanes (planes * Block.expansion block) stride,
           BatchNorm3d.mk (planes * Block.expansion block))
   /\ (stride <> 1 \/ inplanes <> planes * Block.expansion block))
  \/ (stage_downsample inplanes block planes stride = None
      /\ stride = 1 /\ inplanes = planes * Block.expansion block).
Proof.
  unfold stage_downsample.
  destruct (Z.eqb_spec stride 1), (Z.eqb_spec inplanes (planes * Block.expansion block));
    cbn [negb orb]; auto.
Qed.

(** C6: the stage [_make_layer] returns is a first block followed by
    [blocks - 1] others.  The first block is built with the stage's stride
    on the running channel count and has a projection shortcut -- a 1x1x1
    convolution of that stride to [planes * expansion] channels and its
    normalisation -- exactly when the stride is not 1 or the running count is
    not [planes * expansion]; every later block has stride 1, no projection
    and [planes * expansion] input channels, which is also the running count
    left behind. *)
Theorem make_layer_blocks inplanes block planes blocks stride p :
  exists first rest,
    ResNet._make_layer inplanes block planes blocks stride p
      = (first :: rest, planes * Block.expansion block)
    /\ Block.stride first = stride
    /\ Block.in_planes first = inplanes
    /\ (Block.downsample first <> None
        <-> stride <> 1 \/ inplanes <> planes * Block.expansion block)
    /\ (forall ds, Block.downsample first = Some ds ->
          ds = (conv1x1x1 inplanes (planes * Block.expansion block) stride,
                BatchNorm3d.mk (planes * Block.expansion block)))
    /\ List.length rest = Z.to_nat (blocks - 1)
    /\ Forall (fun b => Block.stride b = 1 /\ Block.downsample b = None
                        /\ Block.in_planes b = planes * Block.expansion block) rest.
Proof.
  eexists _, _. split; [reflexivity|].
  change (if negb (stride =? 1) || negb (inplanes =? planes * Block.expansion block)
          then _ else None) with (stage_downsample inplanes block planes stride).
  destruct (call_fields block inplanes planes stride
              (stage_downsample inplanes block planes stride) p) as (-> & -> & -> & _).
  repeat split.
  - intros Hds. destruct (stage_downsample_spec inplanes block planes stride)
      as [[_ H]|[E _]]; [exact H | contradiction].
  - intros Hc. destruct (stage_downsample_spec inplanes block planes stride)
      as [[E _]|[_ [-> ->]]]; [now rewrite E | destruct Hc; contradiction].
  - intros ds E. destruct (stage_downsample_spec inplanes block planes stride)
      as [[E' _]|[E' _]]; congruence.
  - apply more_blocks_length.
  - apply more_blocks_identity.
Qed.

(** ** The named constructor *)

Lemma init_fields block layers num_classes p cin r :
  ResNet.init block layers num_classes p cin = Some r ->
  Linear.out_features (ResNet.fc r) = num_classes
  /\ Conv3d.in_channels (ResNet.conv1 r) = cin.
Proof.
  unfold ResNet.init. intros Hr.
  repeat match type of Hr with
         | match nth_error ?l ?i with _ => _ end = _ =>
             destruct (nth_error l i); [|discriminate]
         | (let '(_, _) := ?e in _) = _ => destruct e
         end.
  injection Hr as <-. split; reflexivity.
Qed.

Lemma resnet101_total kw : exists r, resnet101 kw = Some r.
Proof. unfold resnet101, ResNet.init. cbn [nth_error].
  repeat match goal with
         | |- exists _, (let '(_, _) := ?e in _) = _ => destruct e
         end.
  eexists. reflexivity.
Qed.

(** C10: [resnet101()] without keyword arguments is built for 1000 outputs
    and 3 input channels; whatever is passed, the head has 1 output and the
    stem 1 input channel exactly when [num_classes=1] and [in_channels=1]
    are both passed; the notebook's [model] passes both. *)
Theorem resnet101_defaults :
  (exists r, resnet101 no_kwargs = Some r
     /\ Linear.out_features (ResNet.fc r) = 1000
     /\ Conv3d.in_channels (ResNet.conv1 r) = 3)
  /\ (forall kw, exists r, resnet101 kw = Some r
        /\ Linear.out_features (ResNet.fc r) = default 1000 (kw_num_classes kw)
        /\ Conv3d.in_channels (ResNet.conv1 r) = default 3 (kw_in_channels kw)
        /\ ((Linear.out_features (ResNet.fc r) = 1
             /\ Conv3d.in_channels (ResNet.conv1 r) = 1)
            <-> (kw_num_classes kw = Some 1 /\ kw_in_channels kw = Some 1)))
  /\ (exists r, model = Some (ModelComb.init r 1 1)
        /\ resnet101 (mk_kwargs (Some 1) None (Some 1)) = Some r
        /\ Linear.out_features (ResNet.fc r) = 1
        /\ Conv3d.in_channels (ResNet.conv1 r) = 1).
Proof.
  assert (Hall : forall kw, exists r, resnet101 kw = Some r
        /\ Linear.out_features (ResNet.fc r) = default 1000 (kw_num_classes kw)
        /\ Conv3d.in_channels (ResNet.conv1 r) = default 3 (kw_in_channels kw)).
  { intros kw. destruct (resnet101_total kw) as [r Hr]. exists r. split; [exact Hr|].
    exact (init_fields _ _ _ _ _ _ Hr). }
  split; [|split].
  - destruct (Hall no_kwargs) as (r & Hr & Hfc & Hc). exists r. auto.
  - intros kw. destruct (Hall kw) as (r & Hr & Hfc & Hc). exists r.
    split; [exact Hr|]. split; [exact Hfc|]. split; [exact Hc|].
    rewrite Hfc, Hc. destruct (kw_num_classes kw), (kw_in_channels kw); cbn [default].
    + split; intros [E1 E2]; split; congruence.
    + split; intros [E1 E2]; [discriminate E2 | discriminate E2].
    + split; intros [E1 E2]; [discriminate E1 | discriminate E1].
    + split; intros [E1 E2]; [discriminate E1 | discriminate E1].
  - destruct (Hall (mk_kwargs (Some 1) None (Some 1))) as (r & Hr & Hfc & Hc).
    exists r. unfold model. rewrite Hr. auto.
Qed.

(** ** The twin encoder's constructor *)

(** C9: [n_classes] and [n_input_channels] are dropped by the constructor:
    whatever is passed for them, the model is the same object holding
    [resnet], and so is its forward pass, under every interpretation of the
    tensor operations. *)
Theorem ModelComb_init_ignores_sizes (resnet : ResNet.t) (n c n' c' : Z) :
  ModelComb.init resnet n c = ModelComb.init resnet n' c'
  /\ ModelComb.resnet (ModelComb.init resnet n c) = resnet
  /\ forall (M : Type -> Type) (T : Type) (Mon : Monad M) (ops : Ops M T) (x1 x2 : T),
       ModelComb.forward (ModelComb.init resnet n c) x1 x2
       = ModelComb.forward (ModelComb.init resnet n' c') x1 x2.
Proof. repeat split. Qed.

(** ** Forward passes on values *)

Section ValueProofs.
Context {store : Type} {K : Backend store}.

Lemma preserves_ret {A} (a : A) : preserves (S := store) (ret a).
Proof. intros st. reflexivity. Qed.

Lemma preserves_bind {A B} (c : State store A) (f : A -> State store B) :
  preserves c -> (forall a, preserves (f a)) -> preserves (bind c f).
Proof.
  intros Hc Hf st. cbn. specialize (Hc st). destruct (c st) as [a st']. cbn in Hc. subst st'.
  apply Hf.
Qed.

Lemma preserves_run {A} (c : State store A) st : preserves c -> c st = (fst (c st), st).
Proof. intros Hc. specialize (Hc st). destruct (c st); cbn in *. now subst. Qed.

(** In inference mode no operation writes the store. *)
Lemma eval_ops_preserve :
  (forall k c x, preserves (F_conv3d (Ops := ValueOps Eval) k c x))
  /\ (forall k b x, preserves (F_batch_norm (Ops := ValueOps Eval) k b x))
  /\ (forall r x, preserves (F_relu (Ops := ValueOps Eval) r x))
  /\ (forall m x, preserves (F_max_pool3d (Ops := ValueOps Eval) m x))
  /\ (forall d x, preserves (F_dropout (Ops := ValueOps Eval) d x))
  /\ (forall a x, preserves (F_adaptive_avg_pool3d (Ops := ValueOps Eval) a x))
  /\ (forall x d, preserves (torch_flatten (Ops := ValueOps Eval) x d))
  /\ (forall k l x, preserves (F_linear (Ops := ValueOps Eval) k l x))
  /\ (forall out res, preserves (iadd (Ops := ValueOps Eval) out res)).
Proof. repeat split. Qed.

Ltac preserves_ops :=
  destruct eval_ops_preserve as (Pc & Pb & Pr & Pm & Pd & Pa & Pf & Pl & Pi).

Ltac preserves_step :=
  first [ apply preserves_bind; [|intros ?] | apply preserves_ret | solve [auto] ].

Lemma downsample_preserves k ds x :
  preserves (downsample_forward (ops := ValueOps Eval) k ds x).
Proof. preserves_ops. unfold downsample_forward. repeat preserves_step. Qed.

Lemma block_preserves k b x : preserves (Block.forward (ops := ValueOps Eval) k b x).
Proof.
  preserves_ops. pose proof downsample_preserves as Pds.
  destruct b as [b|b]; cbn [Block.forward];
    [unfold BasicBlock.forward | unfold Bottleneck.forward];
    repeat preserves_step.
  all: match goal with |- preserves (match ?d with _ => _ end) => destruct d end;
    repeat preserves_step.
Qed.

Lemma layer_preserves k l : forall i x,
  preserves (ResNet.layer_forward_from (ops := ValueOps Eval) k i l x).
Proof.
  induction l as [|b l IH]; intros i x; cbn [ResNet.layer_forward_from].
  - apply preserves_ret.
  - apply preserves_bind; [apply block_preserves | intros; apply IH].
Qed.

Lemma resnet_preserves k r x : preserves (ResNet.forward (ops := ValueOps Eval) k r x).
Proof.
  preserves_ops. pose proof (fun k l => layer_preserves k l 0%nat) as Pls.
  unfold ResNet.forward, ResNet.layer_forward. repeat preserves_step.
Qed.

Lemma sequential_preserves l : forall x,
  preserves (Sequential.forward (ops := ValueOps Eval) l x).
Proof.
  preserves_ops.
  induction l as [|m l IH]; intros x; cbn [Sequential.forward].
  - apply preserves_ret.
  - apply preserves_bind; [|intros; apply IH].
    destruct m; cbn [Sequential.call]; auto. apply layer_preserves.
Qed.

Ltac destruct_runs :=
  repeat match goal with
         | |- context [let (_, _) := ?e in _] =>
             lazymatch e with
             | (let (_, _) := _ in _) => fail
             | _ => destruct e
             end
         end.

(** C2: from any store (weights, buffers, generator state) and on any
    input, the full backbone computes what the feature-extraction view
    [nn.Sequential(children()[:-2])] computes, and then only pools, flattens
    and applies the linear head to it; the view consists of the stem and the
    four stages, the same module objects under the same names. *)
Theorem feature_extractor_is_forward_prefix md k (r : ResNet.t) (x : Tensor.t) (st : store) :
  drop_last 2 (children k r)
    = [ M_Conv3d (sub k "conv1") (ResNet.conv1 r);
        M_BatchNorm3d (sub k "bn1") (ResNet.bn1 r);
        M_ReLU (ResNet.relu r);
        M_MaxPool3d (ResNet.maxpool r);
        M_Layer (sub k "layer1") (ResNet.layer1 r);
        M_Layer (sub k "layer2") (ResNet.layer2 r);
        M_Layer (sub k "layer3") (ResNet.layer3 r);
        M_Layer (sub k "layer4") (ResNet.layer4 r) ]
  /\ ResNet.forward (ops := ValueOps md) k r x st
     = (let (features, st') :=
          Sequential.forward (ops := ValueOps md) (drop_last 2 (children k r)) x st in
        head (ops := ValueOps md) k r features st').
Proof.
  split; [reflexivity|].
  unfold ResNet.forward, head, drop_last, children.
  cbn [List.length Nat.sub firstn Sequential.forward Sequential.call bind ret Monad_State
       F_conv3d F_relu F_max_pool3d F_batch_norm ValueOps].
  destruct_runs. reflexivity.
Qed.

(** In inference mode, where the store stays as it is, the prediction is
    the head applied to the output of the view. *)
Lemma eval_forward_through_features k (r : ResNet.t) (x : Tensor.t) (st : store) :
  ResNet.forward (ops := ValueOps Eval) k r x st
  = (fst (head (ops := ValueOps Eval) k r
            (fst (Sequential.forward (ops := ValueOps Eval) (drop_last 2 (children k r)) x st))
            st),
     st).
Proof.
  rewrite (preserves_run _ st (resnet_preserves k r x)). f_equal.
  unfold ResNet.forward, head, drop_last, children.
  cbn [List.length Nat.sub firstn Sequential.forward Sequential.call bind ret Monad_State
       F_conv3d F_relu F_max_pool3d F_batch_norm ValueOps Value.batch_norm].
  unfold ResNet.layer_forward.
  cbn [F_adaptive_avg_pool3d torch_flatten F_linear ValueOps].
  repeat match goal with
         | |- context [let (_, _) := ?e in _] =>
             lazymatch e with
             | (let (_, _) := _ in _) => fail
             | ?c ?s0 =>
                 let H := fresh "H" in
                 let s := fresh "s" in
                 assert (H : snd (c s0) = s0) by apply layer_preserves;
                 destruct (c s0) as [? s]; cbn [snd] in H; subst s
             end
         end.
  reflexivity.
Qed.

(** In inference mode the twin encoder's first prediction is the head
    applied to the first feature map it returns, and likewise the second. *)
Lemma twin_encoder_predictions (model : ModelComb.t) (x1 x2 : Tensor.t) (st : store) :
  exists f1 f2,
    ModelComb.forward (ops := ValueOps Eval) model x1 x2 st
    = ((f1, f2,
        fst (head (ops := ValueOps Eval) [Attr "resnet"] (ModelComb.resnet model) f1 st),
        fst (head (ops := ValueOps Eval) [Attr "resnet"] (ModelComb.resnet model) f2 st)),
       st).
Proof.
  unfold ModelComb.forward. cbn [bind ret Monad_State].
  rewrite !eval_forward_through_features.
  rewrite (preserves_run _ st (sequential_preserves _ x1)).
  rewrite (preserves_run _ st (sequential_preserves _ x2)).
  eexists _, _. reflexivity.
Qed.

(** C8: in inference mode, from any store, the twin encoder run on the same
    volume twice returns the same feature map twice and the same prediction
    twice, and leaves the store as it was. *)
Theorem twin_encoder_same_input (model : ModelComb.t) (x : Tensor.t) (st : store) :
  exists features reg,
    ModelComb.forward (ops := ValueOps Eval) model x x st
    = ((features, features, reg, reg), st).
Proof.
  unfold ModelComb.forward. cbn [bind ret Monad_State].
  rewrite (preserves_run _ st (resnet_preserves _ _ _)).
  rewrite (preserves_run _ st (resnet_preserves _ _ _)).
  rewrite (preserves_run _ st (sequential_preserves _ _)).
  rewrite (preserves_run _ st (sequential_preserves _ _)).
  eexists _, _. reflexivity.
Qed.

(** Dropout of either kind returns its input in inference mode, and also
    when training at the default rate 0. *)
Lemma dropout_identity (md : mode) (d : Dropout) (x : Tensor.t) (st : store) :
  Value.dropout Eval d x st = (x, st)
  /\ (dropout_p d = 0%Q -> Value.dropout md d x st = (x, st)).
Proof.
  split; [reflexivity|]. intros Hp. unfold Value.dropout. rewrite Hp.
  destruct md; reflexivity.
Qed.

End ValueProofs.

(** ** Dropout in the two block variants *)

Lemma half_rate_scale : (1 - Q2R (1 # 2) = / 2)%R.
Proof. unfold Q2R. cbn [Qnum Qden]. lra. Qed.

(** C7 fails on [BasicBlock]: it builds [nn.Dropout], which zeroes single
    elements, where [Bottleneck] builds [nn.Dropout3d].  Training at rate
    1/2 with the generator drawing "keep, drop", the basic block's dropout
    turns a channel holding two ones into one holding 2 and 0, so the channel
    is not dropped or kept as a whole; the bottleneck's dropout draws once
    for the channel and keeps both voxels. *)
Theorem BasicBlock_dropout_not_spatial :
  BasicBlock.dropout (BasicBlock.init 1 1 1 None (1 # 2)) = nn_Dropout (1 # 2)
  /\ Bottleneck.dropout (Bottleneck.init 1 1 1 None (1 # 2)) = nn_Dropout3d (1 # 2)
  /\ Value.dropout Train (BasicBlock.dropout (BasicBlock.init 1 1 1 None (1 # 2)))
       two_voxels [true; false]
     = (Tensor.mk [1; 1; 1; 1; 2] [2%R; 0%R], [])
  /\ Value.dropout Train (Bottleneck.dropout (Bottleneck.init 1 1 1 None (1 # 2)))
       two_voxels [true; false]
     = (Tensor.mk [1; 1; 1; 1; 2] [2%R; 2%R], [false]).
Proof.
  split; [reflexivity|]. split; [reflexivity|].
  split.
  - cbn [BasicBlock.dropout BasicBlock.init]. unfold Value.dropout, two_voxels, Value.mul_noise.
    cbn. rewrite !half_rate_scale.
    replace (1 * (1 / / 2))%R with 2%R by field.
    replace (1 * (0 / / 2))%R with 0%R by field. reflexivity.
  - cbn [Bottleneck.dropout Bottleneck.init]. unfold Value.dropout, two_voxels, Value.mul_noise.
    cbn. change (Pos.to_nat 1) with 1%nat. change (Pos.to_nat 2) with 2%nat. cbn.
    rewrite !half_rate_scale.
    replace (1 * (1 / / 2))%R with 2%R by field. reflexivity.
Qed.

(** ** The contrastive loss *)

Section LossProofs.
Local Open Scope R_scope.

Lemma rows_length n w l : List.length (rows n w l) = n.
Proof. revert l. induction n as [|n IH]; intros l; simpl; [reflexivity | now rewrite IH]. Qed.

Lemma rows_seq n w : forall l,
  rows n w l = map (fun j => firstn w (skipn (j * w) l)) (seq 0 n).
Proof.
  induction n as [|n IH]; intros l; [reflexivity|].
  cbn [rows seq map]. f_equal. rewrite <- seq_shift, map_map, IH.
  apply map_ext. intros j. rewrite skipn_skipn. do 2 f_equal. cbn [Nat.mul]. lia.
Qed.

Lemma nth_map_seq (f : nat -> R) (w k : nat) :
  (k < w)%nat -> nth k (map f (seq 0 w)) 0 = f k.
Proof.
  intros Hk. rewrite (nth_indep _ 0 (f 0%nat)) by (rewrite length_map, length_seq; lia).
  rewrite map_nth, seq_nth by lia. reflexivity.
Qed.

Lemma firstn_skipn_seq (l : list R) (o w : nat) :
  (o + w <= List.length l)%nat ->
  firstn w (skipn o l) = map (fun k => nth (o + k) l 0) (seq 0 w).
Proof.
  intros Hlen. apply nth_ext with (d := 0) (d' := 0).
  - rewrite length_firstn, length_skipn, length_map, length_seq. lia.
  - intros k Hk. rewrite length_firstn, length_skipn in Hk.
    assert (Hkw : (k < w)%nat) by lia.
    rewrite nth_map_seq by assumption.
    rewrite nth_firstn. destruct (Nat.ltb_spec k w); [|lia].
    apply nth_skipn.
Qed.

Lemma diff_nth (a b : list R) (i : nat) :
  List.length a = List.length b -> (i < List.length a)%nat ->
  nth i (map (fun '(x, y) => x - y + eps) (combine a b)) 0 = nth i a 0 - nth i b 0 + eps.
Proof.
  intros Hab Hi.
  match goal with |- nth _ (map ?f _) _ = _ => set (g := f) end.
  transitivity (nth i (map g (combine a b)) (g (0, 0))).
  - apply nth_indep. rewrite length_map, length_combine. lia.
  - rewrite map_nth, combine_nth by assumption. reflexivity.
Qed.

Lemma contrastive_loss_hinge_mean x1 x2 margin :
  contrastive_loss x1 x2 margin
  = mean (map (hinge margin) (Tensor.data (F_pairwise_distance x1 x2))).
Proof.
  unfold contrastive_loss, clamp_min, rsub. cbn [Tensor.data]. now rewrite map_map.
Qed.

Lemma wf_5d_length x B C D H W :
  Tensor.size x = [B; C; D; H; W]%Z -> Tensor.wf x ->
  List.length (Tensor.data x) = (Z.to_nat (B * C * D * H) * Z.to_nat W)%nat.
Proof.
  intros Hs [Hnn Hlen]. rewrite Hlen, Hs. rewrite Hs in Hnn.
  repeat match goal with H : Forall _ (_ :: _) |- _ => inversion H; subst; clear H end.
  cbn [prod fold_right]. rewrite <- Z2Nat.inj_mul by nia. f_equal. lia.
Qed.

(** What the code returns on two feature maps of one size
    [(B, C, D, H, W)], which it hands to [F.pairwise_distance] as they are:
    the mean, over all [B * C * D * H] rows along the last axis, of
    [clamp(margin - d_j, min=0)], where [d_j] is the 2-norm of the
    difference of row [j] of the two maps with [eps] added to each of its
    [W] entries. *)
Lemma contrastive_loss_by_rows (x1 x2 : Tensor.t) (B C D H W : Z) (margin : R) :
  Tensor.size x1 = [B; C; D; H; W]%Z ->
  Tensor.size x2 = [B; C; D; H; W]%Z ->
  Tensor.wf x1 -> Tensor.wf x2 ->
  contrastive_loss x1 x2 margin
  = sum_upto (Z.to_nat (B * C * D * H))
      (fun j => Rmax (margin - row_distance (Z.to_nat W) x1 x2 j) 0)
    / INR (Z.to_nat (B * C * D * H)).
Proof.
  intros Hs1 Hs2 Hwf1 Hwf2.
  pose proof (wf_5d_length x1 B C D H W Hs1 Hwf1) as L1.
  pose proof (wf_5d_length x2 B C D H W Hs2 Hwf2) as L2.
  rewrite contrastive_loss_hinge_mean. unfold F_pairwise_distance, mean.
  rewrite Hs1. cbn [removelast last Tensor.data prod fold_right].
  replace (B * (C * (D * (H * 1))))%Z with (B * C * D * H)%Z by lia.
  set (n := Z.to_nat (B * C * D * H)) in *. set (w := Z.to_nat W) in *.
  rewrite !length_map, rows_length. f_equal.
  unfold sum_upto. f_equal. rewrite rows_seq, !map_map.
  apply map_ext_in. intros j Hj. apply in_seq in Hj.
  unfold hinge, row_distance, norm2, sum_upto. do 3 f_equal.
  assert (Hjw : (j * w + w <= n * w)%nat) by nia.
  rewrite firstn_skipn_seq by (rewrite length_map, length_combine; lia).
  rewrite map_map. f_equal. apply map_ext_in. intros k Hk. apply in_seq in Hk.
  unfold elem. rewrite diff_nth by (try lia; nia). reflexivity.
Qed.

Lemma eps_bounds : 0 < eps < 1.
Proof. unfold eps. lra. Qed.

Lemma norm2_single x : norm2 [x] = Rabs x.
Proof.
  unfold norm2. cbn [map sum fold_right]. rewrite Rplus_0_r.
  change (x * x) with (Rsqr x). apply sqrt_Rsqr_abs.
Qed.

(** The code on the two maps: the rows 2 apart give 0, the equal rows give
    [1 - eps]; the mean is over both. *)
Lemma loss_zeros_two : contrastive_loss zeros_2 two_zero 1 = (1 - eps) / 2.
Proof.
  pose proof eps_bounds as He.
  rewrite contrastive_loss_hinge_mean. unfold F_pairwise_distance, zeros_2, two_zero.
  cbn [Tensor.size Tensor.data removelast last prod fold_right combine map].
  change (Z.to_nat (1 * (1 * (1 * (2 * 1))))) with 2%nat. change (Z.to_nat 1) with 1%nat.
  cbn [rows firstn skipn map]. rewrite !norm2_single.
  rewrite (Rabs_left (0 - 2 + eps)) by lra. rewrite (Rabs_right (0 - 0 + eps)) by lra.
  unfold hinge. rewrite Rmax_right by lra. rewrite Rmax_left by lra.
  unfold mean. cbn [sum fold_right List.length INR]. lra.
Qed.

(** The one sample of the two maps: its flattened feature vectors are 2
    apart. *)
Lemma per_sample_zeros_two : per_sample_distances zeros_2 two_zero = [2].
Proof.
  unfold per_sample_distances, zeros_2, two_zero.
  cbn [Tensor.size Tensor.data hd tl prod fold_right].
  change (Z.to_nat 1) with 1%nat. change (Z.to_nat (1 * (1 * (2 * (1 * 1))))) with 2%nat.
  cbn [rows firstn skipn combine map]. f_equal.
  unfold euclidean. cbn [combine map sum fold_right].
  replace ((0 - 2) * (0 - 2) + ((0 - 0) * (0 - 0) + 0)) with (Rsqr 2) by (unfold Rsqr; lra).
  apply sqrt_Rsqr. lra.
Qed.

(** C1 fails on the code, which does not flatten the feature maps before
    [F.pairwise_distance]: on one sample of two rows, [[0, 0]] against
    [[2, 0]], the distance between the flattened feature vectors is 2, so
    the mean over the batch of [clamp(margin - d_i, min=0)] is 0 at margin
    1, while the code takes a distance per row and returns [(1 - eps) / 2]. *)
Theorem contrastive_loss_not_per_sample :
  Tensor.size zeros_2 = Tensor.size two_zero
  /\ per_sample_distances zeros_2 two_zero = [2]
  /\ spec_contrastive_loss zeros_2 two_zero 1 = 0
  /\ contrastive_loss zeros_2 two_zero 1 = (1 - eps) / 2
  /\ contrastive_loss zeros_2 two_zero 1 <> spec_contrastive_loss zeros_2 two_zero 1.
Proof.
  pose proof eps_bounds as He.
  assert (Hspec : spec_contrastive_loss zeros_2 two_zero 1 = 0).
  { unfold spec_contrastive_loss. rewrite per_sample_zeros_two.
    cbn [map]. rewrite Rmax_right by lra. unfold mean. cbn [sum fold_right List.length INR]. lra. }
  split; [reflexivity|]. split; [exact per_sample_zeros_two|]. split; [exact Hspec|].
  split; [exact loss_zeros_two|].
  rewrite Hspec, loss_zeros_two. lra.
Qed.

(** *** The hinge *)

Lemma hinge_nonneg m d : 0 <= hinge m d.
Proof. unfold hinge. apply Rmax_r. Qed.

Lemma distances_zeros_two :
  Tensor.data (F_pairwise_distance zeros_2 two_zero) = [2 - eps; eps].
Proof.
  pose proof eps_bounds as He. unfold F_pairwise_distance, zeros_2, two_zero.
  cbn [Tensor.size Tensor.data removelast last prod fold_right combine map].
  change (Z.to_nat (1 * (1 * (1 * (2 * 1))))) with 2%nat. change (Z.to_nat 1) with 1%nat.
  cbn [rows firstn skipn map]. rewrite !norm2_single.
  rewrite (Rabs_left (0 - 2 + eps)) by lra. rewrite (Rabs_right (0 - 0 + eps)) by lra.
  replace (- (0 - 2 + eps)) with (2 - eps) by lra.
  replace (0 - 0 + eps) with eps by lra. reflexivity.
Qed.

(** C4 fails on the code, which does not flatten the feature maps before
    [F.pairwise_distance]: on the one sample [[0, 0]] against [[2, 0]] the
    only per-sample distance is 2, at least the margin 1, and yet the loss
    is not 0.  The code gets two distances, one per row, [2 - eps] and
    [eps], and returns [(1 - eps) / 2]: the row that the two maps share
    counts as a pair of its own. *)
Theorem contrastive_loss_positive_beyond_margin :
  0 < 1
  /\ Forall (fun d => 1 <= d) (per_sample_distances zeros_2 two_zero)
  /\ Tensor.data (F_pairwise_distance zeros_2 two_zero) = [2 - eps; eps]
  /\ 0 < contrastive_loss zeros_2 two_zero 1
  /\ contrastive_loss zeros_2 two_zero 1 <> 0.
Proof.
  pose proof eps_bounds as He. split; [lra|]. split; [|split; [|split]].
  - rewrite per_sample_zeros_two. repeat constructor. lra.
  - exact distances_zeros_two.
  - rewrite loss_zeros_two. lra.
  - rewrite loss_zeros_two. lra.
Qed.
End LossProofs.

(** ** The regression loss and the total loss *)

Section MseProofs.
Local Open Scope R_scope.

Lemma broadcast_rev_same (l : list Z) : broadcast_rev l l = Some l.
Proof.
  induction l as [|x l IH]; [reflexivity|].
  cbn [broadcast_rev]. now rewrite IH, Z.eqb_refl.
Qed.

(** A size goes together with itself and is the result. *)
Lemma broadcast_shapes_same (s : shape) : broadcast_shapes s s = Some s.
Proof.
  unfold broadcast_shapes. rewrite broadcast_rev_same. cbn [option_map].
  now rewrite rev_involutive.
Qed.

Lemma prod_nonneg (l : list Z) : Forall (fun n => (0 <= n)%Z) l -> (0 <= prod l)%Z.
Proof.
  induction 1 as [|x l Hx _ IH]; cbn [prod fold_right]; [lia|].
  fold (prod l). nia.
Qed.

Lemma concat_rows (n w : nat) : forall l : list R,
  List.length l = (n * w)%nat -> List.concat (rows n w l) = l.
Proof.
  induction n as [|n IH]; intros l Hl.
  - destruct l; [reflexivity | discriminate].
  - cbn [rows List.concat]. rewrite IH.
    + apply firstn_skipn.
    + rewrite length_skipn. lia.
Qed.

(** Expanding to the size a tensor already has returns its elements. *)
Lemma expand_data_same (xs : list Z) :
  Forall (fun n => (0 <= n)%Z) xs ->
  forall d : list R, List.length d = Z.to_nat (prod xs) -> expand_data xs xs d = d.
Proof.
  induction 1 as [|x xs Hx Hxs IH]; intros d Hd; [reflexivity|].
  cbn [expand_data]. cbn [prod fold_right] in Hd. fold (prod xs) in Hd.
  pose proof (prod_nonneg xs Hxs) as Hp.
  rewrite Z2Nat.inj_mul in Hd by assumption.
  set (n := Z.to_nat x) in *. set (w := Z.to_nat (prod xs)) in *.
  rewrite flat_map_concat_map.
  transitivity (List.concat (rows n w d)); [|exact (concat_rows n w d Hd)].
  rewrite rows_seq. f_equal.
  apply map_ext_in. intros i Hi. apply in_seq in Hi.
  assert (Hidx : ((if (x =? 1)%Z then 0 else i) = i)%nat).
  { destruct (Z.eqb_spec x 1) as [E|E]; [|reflexivity].
    subst x. subst n. change (Z.to_nat 1) with 1%nat in Hi. lia. }
  rewrite Hidx. apply IH.
  rewrite length_firstn, length_skipn. nia.
Qed.

Lemma broadcast_to_same (x : Tensor.t) :
  Tensor.wf x -> broadcast_to x (Tensor.size x) = x.
Proof.
  intros [Hnn Hlen]. unfold broadcast_to. rewrite Nat.sub_diag. cbn [repeat app].
  rewrite expand_data_same by assumption. now destruct x.
Qed.

(** On two tensors of one size nothing is expanded: the loss is the mean of
    the squared differences element by element. *)
Lemma mse_loss_same_size (input target : Tensor.t) :
  Tensor.size input = Tensor.size target -> Tensor.wf input -> Tensor.wf target ->
  mse_loss_fn input target
  = mean (map (fun '(a, b) => (a - b) * (a - b))
            (combine (Tensor.data input) (Tensor.data target))).
Proof.
  intros Hs Hi Ht. unfold mse_loss_fn. rewrite <- Hs, broadcast_shapes_same.
  cbv zeta. rewrite (broadcast_to_same input Hi).
  rewrite Hs, (broadcast_to_same target Ht). reflexivity.
Qed.

Lemma wf_same_size_length (a b : Tensor.t) :
  Tensor.size a = Tensor.size b -> Tensor.wf a -> Tensor.wf b ->
  List.length (Tensor.data a) = List.length (Tensor.data b).
Proof. intros Hs [_ La] [_ Lb]. now rewrite La, Lb, Hs. Qed.



Lemma sum_squares_nonneg (l : list (R * R)) :
  0 <= sum (map (fun '(a, b) => (a - b) * (a - b)) l).
Proof.
  induction l as [|[a b] l IH]; cbn [map sum fold_right]; [lra|].
  fold (sum (map (fun '(a, b) => (a - b) * (a - b)) l)).
  pose proof (Rle_0_sqr (a - b)) as Hsq. unfold Rsqr in Hsq. lra.
Qed.

(** A mean of squares is not negative, whatever was expanded. *)
Lemma mse_loss_nonneg (input target : Tensor.t) : 0 <= mse_loss_fn input target.
Proof.
  unfold mse_loss_fn.
  destruct (broadcast_shapes (Tensor.size input) (Tensor.size target)) as [s|]; [|lra].
  cbv zeta. unfold mean.
  set (l := combine _ _). pose proof (sum_squares_nonneg l) as Hs.
  destruct l as [|p l].
  - cbn. lra.
  - apply Rmult_le_pos; [exact Hs|]. left. apply Rinv_0_lt_compat, lt_0_INR.
    cbn [map List.length]. lia.
Qed.

(** Sizes that differ are expanded first: a column and a row with the same
    two entries, 0 and 1, become two 2 x 2 tables that differ in two places,
    and the loss is 1/2. *)
Lemma mse_loss_broadcasts :
  Tensor.data column_01 = Tensor.data row_01
  /\ broadcast_shapes (Tensor.size column_01) (Tensor.size row_01) = Some [2; 2]%Z
  /\ Tensor.data (broadcast_to column_01 [2; 2]%Z) = [0; 0; 1; 1]
  /\ Tensor.data (broadcast_to row_01 [2; 2]%Z) = [0; 1; 0; 1]
  /\ mse_loss_fn column_01 row_01 = 1 / 2.
Proof.
  assert (E1 : Tensor.data (broadcast_to column_01 [2; 2]%Z) = [0; 0; 1; 1]) by reflexivity.
  assert (E2 : Tensor.data (broadcast_to row_01 [2; 2]%Z) = [0; 1; 0; 1]) by reflexivity.
  assert (E : broadcast_shapes (Tensor.size column_01) (Tensor.size row_01) = Some [2; 2]%Z)
    by reflexivity.
  split; [reflexivity|]. split; [exact E|]. split; [exact E1|]. split; [exact E2|].
  unfold mse_loss_fn. rewrite E. cbv zeta. rewrite E1, E2.
  unfold mean. cbn [combine map sum fold_right List.length]. cbv beta iota.
  replace (INR 4) with 4 by (simpl; lra). lra.
Qed.

(** Sizes that do not go together: [MSELoss] raises. *)
Lemma mse_loss_size_raises :
  mse_loss_size [2; 3]%Z [3; 2]%Z = Raise RuntimeError
  /\ mse_loss_size [2; 1]%Z [1; 2]%Z = Ok [].
Proof. split; reflexivity. Qed.
End MseProofs.

Section TrainingCell.
Context {store : Type} {K : Backend store}.
Local Open Scope R_scope.

End TrainingCell.


(** * Further properties *)

(** ** Construction *)

(** X1: with hyper-parameters that the constructors of [torch.nn] accept,
    [ResNet.__init__] fails exactly on a list of fewer than four depths
    ([IndexError] at [layers[i]]), and it reads the first four depths only:
    the entries after them change nothing. *)
Theorem init_needs_four_depths block layers num_classes p cin :
  accepted num_classes p cin ->
  (ResNet.init block layers num_classes p cin = None <-> (List.length layers < 4)%nat)
  /\ ResNet.init block layers num_classes p cin
     = ResNet.init block (firstn 4 layers) num_classes p cin.
Proof.
  intros _. unfold ResNet.init.
  destruct layers as [|l0 [|l1 [|l2 [|l3 rest]]]];
    cbn [nth_error List.length firstn];
    (split; [|reflexivity]);
    repeat match goal with
           | |- context [let '(_, _) := ?e in _] => destruct e
           end;
    split; intros H; try reflexivity; try discriminate; try lia.
Qed.

Lemma init_needs_four_depths_witness :
  accepted 1 0%Q 1
  /\ ResNet.init BasicBlock_cls [1; 1; 1] 1 0%Q 1 = None
  /\ ResNet.init BasicBlock_cls [1; 1; 1; 1; 7] 1 0%Q 1
     = ResNet.init BasicBlock_cls [1; 1; 1; 1] 1 0%Q 1.
Proof.
  assert (A : accepted 1 0%Q 1).
  { split; [split; discriminate | split; lia]. }
  split; [exact A|]. split.
  - apply (proj2 (proj1 (init_needs_four_depths BasicBlock_cls [1; 1; 1] 1 0%Q 1 A))).
    cbn. lia.
  - exact (proj2 (init_needs_four_depths BasicBlock_cls [1; 1; 1; 1; 7] 1 0%Q 1 A)).
Defined.

Lemma make_layer_length inplanes block planes blocks stride p :
  List.length (fst (ResNet._make_layer inplanes block planes blocks stride p))
  = Z.to_nat (Z.max 1 blocks).
Proof.
  unfold ResNet._make_layer. cbn [fst]. rewrite length_app, more_blocks_length.
  cbn [List.length]. lia.
Qed.

Lemma init_layers block layers num_classes p cin r :
  ResNet.init block layers num_classes p cin = Some r ->
  exists l0 l1 l2 l3,
    nth_error layers 0 = Some l0 /\ nth_error layers 1 = Some l1
    /\ nth_error layers 2 = Some l2 /\ nth_error layers 3 = Some l3
    /\ r = ResNet.mk (512 * Block.expansion block)
             (Conv3d.mk cin 64 (7, 7, 7) (2, 2, 2) (3, 3, 3)) (BatchNorm3d.mk 64)
             (ReLU.mk true) (MaxPool3d.mk 3 2 1)
             (fst (ResNet._make_layer 64 block 64 l0 1 p))
             (fst (ResNet._make_layer (64 * Block.expansion block) block 128 l1 2 p))
             (fst (ResNet._make_layer (128 * Block.expansion block) block 256 l2 2 p))
             (fst (ResNet._make_layer (256 * Block.expansion block) block 512 l3 2 p))
             (AdaptiveAvgPool3d.mk (1, 1, 1))
             (Linear.mk (512 * Block.expansion block) num_classes).
Proof.
  unfold ResNet.init. intros Hr.
  destruct (nth_error layers 0) as [l0|]; [|discriminate].
  destruct (nth_error layers 1) as [l1|]; [|discriminate].
  destruct (nth_error layers 2) as [l2|]; [|discriminate].
  destruct (nth_error layers 3) as [l3|]; [|discriminate].
  exists l0, l1, l2, l3. repeat split.
  cbv beta iota zeta delta [ResNet._make_layer fst] in *.
  injection Hr as <-. reflexivity.
Qed.

(** X2: every stage holds at least one block: stage [i] of a built backbone
    has [max(1, layers[i])] blocks, so a depth of 0 or less still gives one. *)
Theorem stage_depths block layers num_classes p cin r :
  ResNet.init block layers num_classes p cin = Some r ->
  map (@List.length Block)
    [ResNet.layer1 r; ResNet.layer2 r; ResNet.layer3 r; ResNet.layer4 r]
  = map (fun l => Z.to_nat (Z.max 1 l)) (firstn 4 layers).
Proof.
  intros Hr. destruct (init_layers _ _ _ _ _ _ Hr) as (l0 & l1 & l2 & l3 & E0 & E1 & E2 & E3 & ->).
  destruct layers as [|a0 [|a1 [|a2 [|a3 rest]]]]; try discriminate.
  cbn [nth_error] in *. injection E0 as ->. injection E1 as ->.
  injection E2 as ->. injection E3 as ->.
  cbn [map firstn ResNet.layer1 ResNet.layer2 ResNet.layer3 ResNet.layer4].
  now rewrite !make_layer_length.
Qed.

Lemma stage_depths_witness :
  exists r,
    ResNet.init BasicBlock_cls [2; 0; -3; 1] 1 0%Q 1 = Some r
    /\ map (@List.length Block)
         [ResNet.layer1 r; ResNet.layer2 r; ResNet.layer3 r; ResNet.layer4 r]
       = [2; 1; 1; 1]%nat.
Proof.
  eexists. split; [reflexivity|].
  exact (stage_depths BasicBlock_cls [2; 0; -3; 1] 1 0%Q 1 _ eq_refl).
Defined.

Lemma chained_app a l1 b l2 c :
  chained a l1 b -> chained b l2 c -> chained a (l1 ++ l2) c.
Proof.
  revert a. induction l1 as [|x l1 IH]; intros a H1 H2; cbn in *.
  - now subst.
  - destruct H1 as (? & ? & ? & H1). split; [assumption|]. split; [assumption|].
    split; [assumption|]. now apply IH.
Qed.

Lemma call_channels_ok block inplanes planes s ds p :
  block_channels_ok (Block.call block inplanes planes s ds p).
Proof. destruct block; cbn; repeat split. Qed.

Lemma more_blocks_chained n block planes p :
  chained (planes * Block.expansion block)
    (ResNet.more_blocks n block (planes * Block.expansion block) planes p)
    (planes * Block.expansion block).
Proof.
  induction n as [|n IH]; cbn [ResNet.more_blocks chained]; [reflexivity|].
  destruct (call_fields block (planes * Block.expansion block) planes 1 None p)
    as (Hs & Hd & Hi & Ho & _).
  split; [exact Hi|]. split; [apply call_channels_ok|]. split.
  - unfold shortcut_ok. rewrite Hd, Hs, Hi, Ho. split; reflexivity.
  - rewrite Ho. exact IH.
Qed.

Lemma make_layer_chained inplanes block planes blocks s p :
  chained inplanes (fst (ResNet._make_layer inplanes block planes blocks s p))
    (planes * Block.expansion block).
Proof.
  unfold ResNet._make_layer. cbn [fst app chained].
  change (if negb (s =? 1) || negb (inplanes =? planes * Block.expansion block)
          then _ else None) with (stage_downsample inplanes block planes s).
  destruct (call_fields block inplanes planes s (stage_downsample inplanes block planes s) p)
    as (Hs & Hd & Hi & Ho & _).
  split; [exact Hi|]. split; [apply call_channels_ok|]. split.
  - unfold shortcut_ok. rewrite Hd, Hs, Hi, Ho.
    destruct (stage_downsample_spec inplanes block planes s) as [[-> _]|[-> [-> ->]]].
    + cbn. repeat split.
    + split; reflexivity.
  - rewrite Ho. apply more_blocks_chained.
Qed.

(** X3: in a built backbone the channel counts agree all the way: the stem
    gives 64 channels, every block of the four stages is consistent inside,
    takes what the block before it gives, and has a shortcut that fits (an
    identity only where stride is 1 and the channel count is kept, else a
    projection to the block's output channels with the block's stride), and
    the last block gives the [in_features] of the linear head. *)
Theorem channels_chain block layers num_classes p cin r :
  ResNet.init block layers num_classes p cin = Some r ->
  Conv3d.out_channels (ResNet.conv1 r) = 64
  /\ BatchNorm3d.num_features (ResNet.bn1 r) = 64
  /\ chained 64 (all_blocks r) (Linear.in_features (ResNet.fc r))
  /\ ResNet.inplanes r = Linear.in_features (ResNet.fc r).
Proof.
  intros Hr. destruct (init_layers _ _ _ _ _ _ Hr) as (l0 & l1 & l2 & l3 & _ & _ & _ & _ & ->).
  cbn [ResNet.conv1 ResNet.bn1 ResNet.fc ResNet.inplanes Conv3d.out_channels
       BatchNorm3d.num_features Linear.in_features].
  split; [reflexivity|]. split; [reflexivity|]. split; [|reflexivity]. unfold all_blocks.
  cbn [ResNet.layer1 ResNet.layer2 ResNet.layer3 ResNet.layer4].
  eapply chained_app; [apply make_layer_chained|].
  eapply chained_app; [apply make_layer_chained|].
  eapply chained_app; [apply make_layer_chained|].
  apply make_layer_chained.
Qed.

Lemma channels_chain_witness :
  exists r,
    resnet101 (mk_kwargs (Some 1) None (Some 1)) = Some r
    /\ chained 64 (all_blocks r) (Linear.in_features (ResNet.fc r)).
Proof.
  destruct (resnet101_total (mk_kwargs (Some 1) None (Some 1))) as [r Hr].
  exists r. split; [exact Hr|].
  exact (proj1 (proj2 (proj2 (channels_chain Bottleneck_cls [3; 4; 23; 3] 1 0%Q 1 r Hr)))).
Defined.

(** ** Sizes: errors *)

Ltac destruct_results :=
  repeat match goal with
         | |- context [match ?e with Ok _ => _ | Raise _ => _ end] =>
             lazymatch e with
             | match _ with Ok _ => _ | Raise _ => _ end => fail
             | _ => destruct e
             end
         end.

(** On sizes too the full pass is the view followed by the head; an
    exception raised in the stem or a stage is raised by both. *)
Lemma shape_forward_through_features md k (r : ResNet.t) (s : shape) :
  ResNet.forward (ops := ShapeOps md) k r s
  = match Sequential.forward (ops := ShapeOps md) (drop_last 2 (children k r)) s with
    | Ok features => head (ops := ShapeOps md) k r features
    | Raise e => Raise e
    end.
Proof.
  unfold ResNet.forward, head, drop_last, children.
  cbn [List.length Nat.sub firstn Sequential.forward Sequential.call bind ret Monad_result
       F_conv3d F_relu F_max_pool3d F_batch_norm F_adaptive_avg_pool3d torch_flatten
       F_linear ShapeOps].
  destruct_results; reflexivity.
Qed.

(** X4: an input whose channel count is not the [in_channels] the backbone
    was built with is rejected by the first convolution with
    [RuntimeError], in either mode. *)
Theorem wrong_channels_raise md block layers num_classes p cin r n c d h w :
  ResNet.init block layers num_classes p cin = Some r ->
  c <> cin ->
  ResNet_shape md r [n; c; d; h; w] = Raise RuntimeError.
Proof.
  intros Hr Hc. destruct (init_layers _ _ _ _ _ _ Hr) as (l0 & l1 & l2 & l3 & _ & _ & _ & _ & ->).
  unfold ResNet_shape, ResNet.forward.
  cbn [ResNet.conv1 F_conv3d ShapeOps]. unfold Shape.conv3d.
  cbn [Conv3d.in_channels]. destruct (Z.eqb_spec c cin); [contradiction | reflexivity].
Qed.

(** The network built by [resnet101()] with its defaults does not take the
    notebook's single-channel volumes. *)
Lemma wrong_channels_raise_witness :
  exists r,
    resnet101 no_kwargs = Some r
    /\ 1 <> 3
    /\ ResNet_shape Train r [8; 1; 64; 64; 64] = Raise RuntimeError.
Proof.
  destruct (resnet101_total no_kwargs) as [r Hr]. exists r.
  assert (Hne : 1 <> 3) by lia.
  split; [exact Hr|]. split; [exact Hne|].
  exact (wrong_channels_raise Train Bottleneck_cls [3; 4; 23; 3] 1000 0%Q 3 r 8 1 64 64 64 Hr Hne).
Defined.

Lemma conv3d_length c s s' : Shape.conv3d c s = Ok s' -> List.length s' = List.length s.
Proof.
  unfold Shape.conv3d.
  destruct s as [|a0 [|a1 [|a2 [|a3 [|a4 [|a5 rest]]]]]]; try discriminate.
  - destruct (a0 =? Conv3d.in_channels c); [|discriminate].
    destruct (Shape.conv_out3 c a1 a2 a3) as [[[? ?] ?]|]; cbn; [|discriminate].
    now intros [= <-].
  - destruct (a1 =? Conv3d.in_channels c); [|discriminate].
    destruct (Shape.conv_out3 c a2 a3 a4) as [[[? ?] ?]|]; cbn; [|discriminate].
    now intros [= <-].
Qed.

Lemma batch_norm_needs_5d md b s :
  List.length s <> 5%nat -> Shape.batch_norm md b s = Raise ValueError.
Proof.
  intros Hl. unfold Shape.batch_norm.
  destruct s as [|a0 [|a1 [|a2 [|a3 [|a4 [|a5 rest]]]]]]; try reflexivity.
  now cbn in Hl.
Qed.

Lemma conv_out_raises n k s p e : Shape.conv_out n k s p = Raise e -> e = RuntimeError.
Proof.
  unfold Shape.conv_out. destruct (s <=? 0); [now intros [= <-]|].
  destruct (n + 2 * p <? k); [now intros [= <-] | discriminate].
Qed.

Lemma conv_out3_raises c d h w e : Shape.conv_out3 c d h w = Raise e -> e = RuntimeError.
Proof.
  unfold Shape.conv_out3.
  destruct (Conv3d.kernel_size c) as [[kd kh] kw], (Conv3d.stride c) as [[sd sh] sw],
    (Conv3d.padding c) as [[pd ph] pw].
  destruct (Shape.conv_out d kd sd pd) eqn:Ed; cbn [bind Monad_result];
    [|intros [= <-]; exact (conv_out_raises _ _ _ _ _ Ed)].
  destruct (Shape.conv_out h kh sh ph) eqn:Eh; cbn [bind Monad_result];
    [|intros [= <-]; exact (conv_out_raises _ _ _ _ _ Eh)].
  destruct (Shape.conv_out w kw sw pw) eqn:Ew; cbn [bind ret Monad_result];
    [discriminate | intros [= <-]; exact (conv_out_raises _ _ _ _ _ Ew)].
Qed.

(** The only exception of a convolution is [RuntimeError]. *)
Lemma conv3d_raises c s e : Shape.conv3d c s = Raise e -> e = RuntimeError.
Proof.
  unfold Shape.conv3d.
  destruct s as [|a0 [|a1 [|a2 [|a3 [|a4 [|a5 rest]]]]]]; try (now intros [= <-]).
  - destruct (a0 =? Conv3d.in_channels c); [|now intros [= <-]].
    destruct (Shape.conv_out3 c a1 a2 a3) as [[[? ?] ?]|e'] eqn:E; cbn [bind ret Monad_result];
      [discriminate | intros [= <-]; exact (conv_out3_raises _ _ _ _ _ E)].
  - destruct (a1 =? Conv3d.in_channels c); [|now intros [= <-]].
    destruct (Shape.conv_out3 c a2 a3 a4) as [[[? ?] ?]|e'] eqn:E; cbn [bind ret Monad_result];
      [discriminate | intros [= <-]; exact (conv_out3_raises _ _ _ _ _ E)].
Qed.

Lemma conv3d_dims c s s' :
  Shape.conv3d c s = Ok s' -> List.length s = 4%nat \/ List.length s = 5%nat.
Proof.
  unfold Shape.conv3d.
  destruct s as [|a0 [|a1 [|a2 [|a3 [|a4 [|a5 rest]]]]]]; try discriminate; cbn; auto.
Qed.

(** X5: an input that is not 5-dimensional never gets past the stem.
    Either the first convolution raises [RuntimeError], which is then what
    the forward pass raises; or the input is an unbatched 4-dimensional
    volume that the convolution accepts, and the first [BatchNorm3d] raises
    [ValueError] on what the convolution returns, which is then what the
    forward pass raises.  In either mode, for any backbone. *)
Theorem not_5d_raises md (r : ResNet.t) (s : shape) :
  List.length s <> 5%nat ->
  (Shape.conv3d (ResNet.conv1 r) s = Raise RuntimeError
   /\ ResNet_shape md r s = Raise RuntimeError)
  \/ (List.length s = 4%nat
      /\ exists s',
           Shape.conv3d (ResNet.conv1 r) s = Ok s'
           /\ Shape.batch_norm md (ResNet.bn1 r) s' = Raise ValueError
           /\ ResNet_shape md r s = Raise ValueError).
Proof.
  intros Hl. unfold ResNet_shape, ResNet.forward.
  cbn [F_conv3d F_batch_norm ShapeOps bind Monad_result].
  destruct (Shape.conv3d (ResNet.conv1 r) s) as [s'|e] eqn:Ec.
  - right. pose proof (conv3d_length _ _ _ Ec) as Hlen.
    destruct (conv3d_dims _ _ _ Ec) as [H4|H5]; [|contradiction].
    split; [exact H4|]. exists s'. split; [reflexivity|].
    assert (Hb : Shape.batch_norm md (ResNet.bn1 r) s' = Raise ValueError)
      by (apply batch_norm_needs_5d; congruence).
    split; [exact Hb|]. now rewrite Hb.
  - left. rewrite (conv3d_raises _ _ _ Ec). split; reflexivity.
Qed.

(** One unbatched volume handed to the notebook's network: the convolution
    takes it, the normalisation does not. *)
Lemma not_5d_raises_witness :
  exists r,
    resnet101 (mk_kwargs (Some 1) None (Some 1)) = Some r
    /\ List.length [1; 64; 64; 64] <> 5%nat
    /\ ResNet_shape Eval r [1; 64; 64; 64] = Raise ValueError.
Proof.
  assert (Hl : List.length [1; 64; 64; 64] <> 5%nat) by (cbn; lia).
  eexists. split; [reflexivity|]. split; [exact Hl|].
  match goal with
  | |- ResNet_shape Eval ?r _ = _ =>
      destruct (not_5d_raises Eval r [1; 64; 64; 64] Hl)
        as [[Hc _] | (_ & s' & _ & _ & Hr)]
  end.
  - vm_compute in Hc. discriminate Hc.
  - exact Hr.
Defined.

(** ** Sizes: the feature maps and the twin encoder *)

Lemma reduced_levels md n D H W :
  1 <= D -> 1 <= H -> 1 <= W ->
  bn_ok md n (reduced D) (reduced H) (reduced W) ->
  let d1 := strided 2 D in let h1 := strided 2 H in let w1 := strided 2 W in
  let d2 := strided 2 d1 in let h2 := strided 2 h1 in let w2 := strided 2 w1 in
  let d4 := strided 2 (strided 1 d2) in let h4 := strided 2 (strided 1 h2) in
  let w4 := strided 2 (strided 1 w2) in
  let d5 := strided 2 d4 in let h5 := strided 2 h4 in let w5 := strided 2 w4 in
  (1 <= d1 /\ 1 <= h1 /\ 1 <= w1 /\ bn_ok md n d1 h1 w1)
  /\ (1 <= d2 /\ 1 <= h2 /\ 1 <= w2 /\ bn_ok md n d2 h2 w2)
  /\ (1 <= strided 1 d2 /\ 1 <= strided 1 h2 /\ 1 <= strided 1 w2
      /\ bn_ok md n (strided 1 d2) (strided 1 h2) (strided 1 w2))
  /\ (1 <= d4 /\ 1 <= h4 /\ 1 <= w4 /\ bn_ok md n d4 h4 w4)
  /\ (1 <= d5 /\ 1 <= h5 /\ 1 <= w5 /\ bn_ok md n d5 h5 w5).
Proof.
  intros HD HH HW Hbn. unfold reduced in Hbn. cbv zeta.
  set (d1 := strided 2 D) in *. set (h1 := strided 2 H) in *. set (w1 := strided 2 W) in *.
  set (d2 := strided 2 d1) in *. set (h2 := strided 2 h1) in *. set (w2 := strided 2 w1) in *.
  set (d3 := strided 1 d2) in *. set (h3 := strided 1 h2) in *. set (w3 := strided 1 w2) in *.
  set (d4 := strided 2 d3) in *. set (h4 := strided 2 h3) in *. set (w4 := strided 2 w3) in *.
  set (d5 := strided 2 d4) in *. set (h5 := strided 2 h4) in *. set (w5 := strided 2 w4) in *.
  assert (P1 : 1 <= d1 /\ 1 <= h1 /\ 1 <= w1) by (repeat split; apply strided_pos; lia).
  assert (P2 : 1 <= d2 /\ 1 <= h2 /\ 1 <= w2) by (repeat split; apply strided_pos; lia).
  assert (P3 : 1 <= d3 /\ 1 <= h3 /\ 1 <= w3) by (repeat split; apply strided_pos; lia).
  assert (P4 : 1 <= d4 /\ 1 <= h4 /\ 1 <= w4) by (repeat split; apply strided_pos; lia).
  assert (P5 : 1 <= d5 /\ 1 <= h5 /\ 1 <= w5) by (repeat split; apply strided_pos; lia).
  destruct P1 as (? & ? & ?), P2 as (? & ? & ?), P3 as (? & ? & ?),
    P4 as (? & ? & ?), P5 as (? & ? & ?).
  assert (B5 : bn_ok md n d5 h5 w5) by (apply (bn_ok_strided md 2); auto; lia).
  assert (B4 : bn_ok md n d4 h4 w4) by (apply (bn_ok_strided md 2); auto; lia).
  assert (B3 : bn_ok md n d3 h3 w3) by (apply (bn_ok_strided md 2); auto; lia).
  assert (B2 : bn_ok md n d2 h2 w2) by (apply (bn_ok_strided md 1); auto; lia).
  assert (B1 : bn_ok md n d1 h1 w1) by (apply (bn_ok_strided md 2); auto; lia).
  repeat split; assumption.
Qed.

Lemma stage_shape md k inplanes block planes blocks s p n d h w :
  1 <= inplanes -> 1 <= planes ->
  1 <= s -> 1 <= d -> 1 <= h -> 1 <= w ->
  bn_ok md n (strided s d) (strided s h) (strided s w) ->
  ResNet.layer_forward (ops := ShapeOps md) k
    (fst (ResNet._make_layer inplanes block planes blocks s p)) [n; inplanes; d; h; w]
  = Ok [n; planes * Block.expansion block; strided s d; strided s h; strided s w].
Proof. intros. now apply make_layer_shape. Qed.

(** The feature-extraction view on sizes. *)
Lemma features_shape md k block layers num_classes p cin r n D H W :
  ResNet.init block layers num_classes p cin = Some r ->
  1 <= cin ->
  1 <= D -> 1 <= H -> 1 <= W ->
  bn_ok md n (reduced D) (reduced H) (reduced W) ->
  Sequential.forward (ops := ShapeOps md) (drop_last 2 (children k r)) [n; cin; D; H; W]
  = Ok [n; 512 * Block.expansion block; reduced D; reduced H; reduced W].
Proof.
  intros Hr Hcin HD HH HW Hbn. pose proof (expansion_pos block) as Hexp.
  destruct (init_layers _ _ _ _ _ _ Hr) as (l0 & l1 & l2 & l3 & _ & _ & _ & _ & ->).
  destruct (reduced_levels md n D H W HD HH HW Hbn)
    as ((? & ? & ? & B1) & (? & ? & ? & B2) & (? & ? & ? & B3)
        & (? & ? & ? & B4) & (? & ? & ? & B5)).
  unfold drop_last, children, reduced in *.
  cbn [List.length Nat.sub firstn Sequential.forward Sequential.call
       ResNet.conv1 ResNet.bn1 ResNet.relu ResNet.maxpool ResNet.layer1 ResNet.layer2
       ResNet.layer3 ResNet.layer4 F_conv3d F_batch_norm F_relu F_max_pool3d ShapeOps].
  rewrite stem_conv_shape by (assumption || lia). cbn [bind ret Monad_result].
  rewrite batch_norm_shape by assumption. cbn [bind ret Monad_result].
  rewrite stem_pool_shape by (assumption || lia). cbn [bind ret Monad_result].
  rewrite stage_shape by (assumption || lia). cbn [bind ret Monad_result].
  rewrite stage_shape by (assumption || lia). cbn [bind ret Monad_result].
  rewrite stage_shape by (assumption || lia). cbn [bind ret Monad_result].
  rewrite stage_shape by (assumption || lia). reflexivity.
Qed.

Lemma head_of_init md k block layers num_classes p cin r n d h w :
  ResNet.init block layers num_classes p cin = Some r ->
  1 <= d -> 1 <= h -> 1 <= w ->
  head (ops := ShapeOps md) k r [n; 512 * Block.expansion block; d; h; w]
  = Ok [n; num_classes].
Proof.
  intros Hr Hd Hh Hw.
  destruct (init_layers _ _ _ _ _ _ Hr) as (l0 & l1 & l2 & l3 & _ & _ & _ & _ & ->).
  unfold head.
  cbn [ResNet.avgpool ResNet.fc F_adaptive_avg_pool3d torch_flatten F_linear ShapeOps].
  now apply head_shape.
Qed.

(** The twin encoder on two inputs of one size. *)
Lemma twin_shapes md block layers num_classes p cin r a b n D H W :
  ResNet.init block layers num_classes p cin = Some r ->
  1 <= cin ->
  1 <= D -> 1 <= H -> 1 <= W ->
  bn_ok md n (reduced D) (reduced H) (reduced W) ->
  ModelComb.forward (ops := ShapeOps md) (ModelComb.init r a b)
    [n; cin; D; H; W] [n; cin; D; H; W]
  = Ok ([n; 512 * Block.expansion block; reduced D; reduced H; reduced W],
        [n; 512 * Block.expansion block; reduced D; reduced H; reduced W],
        [n; num_classes], [n; num_classes]).
Proof.
  intros Hr Hcin HD HH HW Hbn.
  pose proof (features_shape md [Attr "resnet"] _ _ _ _ _ _ n D H W Hr Hcin HD HH HW Hbn) as Hf.
  pose proof (head_of_init md [Attr "resnet"] _ _ _ _ _ _ n _ _ _ Hr
                (reduced_pos D HD) (reduced_pos H HH) (reduced_pos W HW)) as Hh.
  unfold ModelComb.forward, ModelComb.init. cbn [ModelComb.resnet].
  rewrite !shape_forward_through_features, !Hf. cbn [bind ret Monad_result].
  rewrite !Hh. reflexivity.
Qed.

(** X6: for a twin encoder over a backbone built for at least one input
    channel and two inputs of size [(batch, in_channels, D, H, W)], the
    batch holding at least one volume, with [D], [H], [W] at least 32 and
    divisible by 32 (and, when training, more than one value per channel
    left at the end), both feature maps have size
    [(batch, 512 * expansion, D/32, H/32, W/32)] and both predictions size
    [(batch, num_classes)]. *)
Theorem twin_encoder_shapes md block layers num_classes p cin r a b n D H W :
  ResNet.init block layers num_classes p cin = Some r ->
  1 <= cin -> 1 <= n ->
  32 <= D -> D mod 32 = 0 ->
  32 <= H -> H mod 32 = 0 ->
  32 <= W -> W mod 32 = 0 ->
  (md = Train -> n * (D / 32) * (H / 32) * (W / 32) <> 1) ->
  ModelComb.forward (ops := ShapeOps md) (ModelComb.init r a b)
    [n; cin; D; H; W] [n; cin; D; H; W]
  = Ok ([n; 512 * Block.expansion block; D / 32; H / 32; W / 32],
        [n; 512 * Block.expansion block; D / 32; H / 32; W / 32],
        [n; num_classes], [n; num_classes]).
Proof.
  intros Hr Hcin Hn HD HDm HH HHm HW HWm Htrain.
  rewrite <- (reduced_32 D HDm), <- (reduced_32 H HHm), <- (reduced_32 W HWm).
  apply (twin_shapes md block layers num_classes p cin r a b n D H W Hr); try lia.
  rewrite !reduced_32 by assumption. destruct md; simpl; [auto | trivial].
Qed.

Lemma twin_encoder_shapes_witness :
  exists r,
    ResNet.init BasicBlock_cls [2; 2; 2; 2] 1 0%Q 1 = Some r
    /\ 1 <= 1
    /\ ModelComb.forward (ops := ShapeOps Eval) (ModelComb.init r 1 1)
         [1; 1; 32; 64; 96] [1; 1; 32; 64; 96]
       = Ok ([1; 512 * Block.expansion BasicBlock_cls; 32 / 32; 64 / 32; 96 / 32],
             [1; 512 * Block.expansion BasicBlock_cls; 32 / 32; 64 / 32; 96 / 32],
             [1; 1], [1; 1]).
Proof.
  eexists. split; [reflexivity|]. split; [lia|].
  apply (twin_encoder_shapes Eval BasicBlock_cls [2; 2; 2; 2] 1 0%Q 1 _ 1 1 1 32 64 96);
    try reflexivity; try lia. discriminate.
Defined.

(** X7: the notebook's cell on its own data: for every batch size of at
    least 1, the volumes [generate_synthetic_mri_data] returns pass through
    the notebook's [model] in training mode; the feature maps have size
    [(batch, 2048, 2, 2, 2)] and the first prediction has the size of [y1],
    so the mean squared error compares tensors of one size. *)
Theorem notebook_step_shapes (batch_size : Z) :
  1 <= batch_size ->
  exists m,
    model = Some m
    /\ let '(x1, x2, y1, y2) := generate_synthetic_mri_data batch_size default_image_shape in
       ModelComb.forward (ops := ShapeOps Train) m x1 x2
       = Ok ([batch_size; 2048; 2; 2; 2], [batch_size; 2048; 2; 2; 2], y1, y2).
Proof.
  intros Hb. unfold model.
  destruct (resnet101_total (mk_kwargs (Some 1) None (Some 1))) as [r Hr].
  rewrite Hr. eexists. split; [reflexivity|].
  unfold generate_synthetic_mri_data, default_image_shape.
  unfold resnet101 in Hr. cbn [default kw_num_classes kw_dropout_rate kw_in_channels] in Hr.
  rewrite (twin_shapes Train _ _ _ _ _ _ 1 1 batch_size 64 64 64 Hr);
    try lia.
  - rewrite !(reduced_32 64) by reflexivity. reflexivity.
  - rewrite !(reduced_32 64) by reflexivity. cbn. lia.
Qed.

Lemma notebook_step_shapes_witness :
  1 <= 8
  /\ exists m,
       model = Some m
       /\ ModelComb.forward (ops := ShapeOps Train) m [8; 1; 64; 64; 64] [8; 1; 64; 64; 64]
          = Ok ([8; 2048; 2; 2; 2], [8; 2048; 2; 2; 2], [8; 1], [8; 1]).
Proof.
  assert (H8 : 1 <= 8) by lia. split; [exact H8|].
  exact (notebook_step_shapes 8 H8).
Defined.

(** ** Sizes: training mode *)

Lemma batch_norm_single b n c d h w :
  n * d * h * w = 1 -> Shape.batch_norm Train b [n; c; d; h; w] = Raise ValueError.
Proof. intros E. unfold Shape.batch_norm. now rewrite E. Qed.

(** A block whose output would hold one value per channel raises when
    training, at its first normalisation of that size or before. *)
Lemma block_raises_single k block inplanes planes s ds p n d h w :
  1 <= inplanes -> 1 <= planes ->
  1 <= s -> 1 <= d -> 1 <= h -> 1 <= w ->
  n * strided s d * strided s h * strided s w = 1 ->
  Block.forward (ops := ShapeOps Train) k (Block.call block inplanes planes s ds p)
    [n; inplanes; d; h; w]
  = Raise ValueError.
Proof.
  intros Hin1 Hpl1 Hs Hd Hh Hw E.
  destruct block; cbn [Block.call Block.forward].
  - unfold BasicBlock.forward, BasicBlock.init.
    cbn [BasicBlock.conv1 BasicBlock.bn1 F_conv3d F_batch_norm ShapeOps].
    rewrite conv3x3x3_shape by (assumption || lia). cbn [bind Monad_result].
    now rewrite batch_norm_single.
  - unfold Bottleneck.forward, Bottleneck.init.
    cbn [Bottleneck.conv1 Bottleneck.bn1 Bottleneck.conv2 Bottleneck.bn2 Bottleneck.relu
         Bottleneck.dropout F_conv3d F_batch_norm F_relu F_dropout ShapeOps].
    rewrite conv1x1x1_shape by (assumption || lia). cbn [bind Monad_result].
    rewrite !strided_1.
    destruct (Z.eq_dec (n * d * h * w) 1) as [E1|N1].
    + now rewrite batch_norm_single.
    + rewrite batch_norm_shape by exact N1. cbn [bind Monad_result].
      rewrite conv3x3x3_shape by (assumption || lia). cbn [bind Monad_result].
      now rewrite batch_norm_single.
Qed.

Lemma stage_raises_single k inplanes block planes blocks s p n d h w :
  1 <= inplanes -> 1 <= planes ->
  1 <= s -> 1 <= d -> 1 <= h -> 1 <= w ->
  n * strided s d * strided s h * strided s w = 1 ->
  ResNet.layer_forward (ops := ShapeOps Train) k
    (fst (ResNet._make_layer inplanes block planes blocks s p)) [n; inplanes; d; h; w]
  = Raise ValueError.
Proof.
  intros. unfold ResNet._make_layer, ResNet.layer_forward. cbn [fst app].
  rewrite layer_forward_from_app, block_raises_single by assumption. reflexivity.
Qed.

(** X8: in training mode the forward pass of a backbone built for at least
    one input channel, on an input of size [(n, in_channels, D, H, W)] that
    holds at least one volume and has non-empty spatial axes, either returns
    size [(n, num_classes)] or raises [ValueError], and it raises exactly
    when the last stage is left with one value per channel. *)
Theorem training_forward_outcome block layers num_classes p cin r n D H W :
  ResNet.init block layers num_classes p cin = Some r ->
  1 <= cin -> 1 <= n ->
  1 <= D -> 1 <= H -> 1 <= W ->
  ResNet_shape Train r [n; cin; D; H; W]
  = if n * reduced D * reduced H * reduced W =? 1
    then Raise ValueError
    else Ok [n; num_classes].
Proof.
  intros Hr Hcin Hn HD HH HW. pose proof (expansion_pos block) as Hexp.
  destruct (Z.eqb_spec (n * reduced D * reduced H * reduced W) 1) as [E|N];
    [|now apply (ResNet_shape_ok Train block layers num_classes p cin r)].
  destruct (init_layers _ _ _ _ _ _ Hr) as (l0 & l1 & l2 & l3 & _ & _ & _ & _ & ->).
  unfold reduced in E.
  set (d1 := strided 2 D) in *. set (h1 := strided 2 H) in *. set (w1 := strided 2 W) in *.
  set (d2 := strided 2 d1) in *. set (h2 := strided 2 h1) in *. set (w2 := strided 2 w1) in *.
  set (d3 := strided 1 d2) in *. set (h3 := strided 1 h2) in *. set (w3 := strided 1 w2) in *.
  set (d4 := strided 2 d3) in *. set (h4 := strided 2 h3) in *. set (w4 := strided 2 w3) in *.
  set (d5 := strided 2 d4) in *. set (h5 := strided 2 h4) in *. set (w5 := strided 2 w4) in *.
  assert (P1 : 1 <= d1 /\ 1 <= h1 /\ 1 <= w1) by (repeat split; apply strided_pos; lia).
  assert (P2 : 1 <= d2 /\ 1 <= h2 /\ 1 <= w2) by (repeat split; apply strided_pos; lia).
  assert (P3 : 1 <= d3 /\ 1 <= h3 /\ 1 <= w3) by (repeat split; apply strided_pos; lia).
  assert (P4 : 1 <= d4 /\ 1 <= h4 /\ 1 <= w4) by (repeat split; apply strided_pos; lia).
  assert (P5 : 1 <= d5 /\ 1 <= h5 /\ 1 <= w5) by (repeat split; apply strided_pos; lia).
  destruct P1 as (? & ? & ?), P2 as (? & ? & ?), P3 as (? & ? & ?),
    P4 as (? & ? & ?), P5 as (? & ? & ?).
  unfold ResNet_shape, ResNet.forward.
  cbn [ResNet.conv1 ResNet.bn1 ResNet.relu ResNet.maxpool ResNet.layer1 ResNet.layer2
       ResNet.layer3 ResNet.layer4 F_conv3d F_batch_norm F_relu F_max_pool3d ShapeOps].
  rewrite stem_conv_shape by (assumption || lia). cbn [bind Monad_result]. fold d1 h1 w1.
  destruct (Z.eq_dec (n * d1 * h1 * w1) 1) as [E1|N1];
    [now rewrite batch_norm_single|].
  rewrite batch_norm_shape by exact N1. cbn [bind Monad_result].
  rewrite stem_pool_shape by (assumption || lia). cbn [bind Monad_result]. fold d2 h2 w2.
  destruct (Z.eq_dec (n * d3 * h3 * w3) 1) as [E3|N3];
    [now rewrite stage_raises_single by (assumption || lia)|].
  rewrite stage_shape by (assumption || lia). cbn [bind Monad_result]. fold d3 h3 w3.
  destruct (Z.eq_dec (n * d4 * h4 * w4) 1) as [E4|N4];
    [now rewrite stage_raises_single by (assumption || lia)|].
  rewrite stage_shape by (assumption || lia). cbn [bind Monad_result]. fold d4 h4 w4.
  destruct (Z.eq_dec (n * d5 * h5 * w5) 1) as [E5|N5];
    [now rewrite stage_raises_single by (assumption || lia)|].
  rewrite stage_shape by (assumption || lia). cbn [bind Monad_result]. fold d5 h5 w5.
  now rewrite stage_raises_single by (assumption || lia).
Qed.

Lemma training_forward_outcome_witness :
  exists r,
    ResNet.init BasicBlock_cls [1; 1; 1; 1] 5 0%Q 2 = Some r
    /\ 1 <= 2
    /\ ResNet_shape Train r [1; 2; 20; 7; 32] = Raise ValueError
    /\ ResNet_shape Train r [2; 2; 20; 7; 32] = Ok [2; 5].
Proof.
  eexists. split; [reflexivity|]. split; [lia|]. split.
  - exact (training_forward_outcome BasicBlock_cls [1; 1; 1; 1] 5 0%Q 2 _ 1 20 7 32
             eq_refl ltac:(lia) ltac:(lia) ltac:(lia) ltac:(lia) ltac:(lia)).
  - exact (training_forward_outcome BasicBlock_cls [1; 1; 1; 1] 5 0%Q 2 _ 2 20 7 32
             eq_refl ltac:(lia) ltac:(lia) ltac:(lia) ltac:(lia) ltac:(lia)).
Defined.

Lemma ok_implies_refl {A} (c : result A) : ok_implies c c.
Proof. intros a H. exact H. Qed.

Lemma ok_implies_bind {A B} (c1 c2 : result A) (f1 f2 : A -> result B) :
  ok_implies c1 c2 -> (forall a, ok_implies (f1 a) (f2 a)) ->
  ok_implies (bind c1 f1) (bind c2 f2).
Proof.
  intros Hc Hf b Hb. destruct c1 as [a|e]; cbn in Hb; [|discriminate].
  rewrite (Hc a eq_refl). cbn. now apply Hf.
Qed.

Lemma batch_norm_train_eval b s :
  ok_implies (Shape.batch_norm Train b s) (Shape.batch_norm Eval b s).
Proof.
  intros s' H. unfold Shape.batch_norm in *.
  destruct s as [|n [|c [|d [|h [|w [|x rest]]]]]]; try discriminate.
  destruct (n * d * h * w =? 1); [discriminate | exact H].
Qed.

Ltac ok_step :=
  first [ apply ok_implies_bind; [|intros ?]
        | apply ok_implies_refl
        | apply batch_norm_train_eval ].

Lemma downsample_train_eval k ds s :
  ok_implies (downsample_forward (ops := ShapeOps Train) k ds s)
             (downsample_forward (ops := ShapeOps Eval) k ds s).
Proof.
  unfold downsample_forward. cbn [F_conv3d F_batch_norm ShapeOps]. repeat ok_step.
Qed.

Lemma block_train_eval k b s :
  ok_implies (Block.forward (ops := ShapeOps Train) k b s)
             (Block.forward (ops := ShapeOps Eval) k b s).
Proof.
  destruct b as [b|b]; cbn [Block.forward];
    [unfold BasicBlock.forward | unfold Bottleneck.forward];
    cbn [F_conv3d F_batch_norm F_relu F_dropout iadd ShapeOps];
    repeat ok_step.
  all: match goal with
       | |- ok_implies (match ?d with _ => _ end) _ =>
           destruct d; [apply downsample_train_eval | apply ok_implies_refl]
       end.
Qed.

Lemma layer_train_eval k l : forall i s,
  ok_implies (ResNet.layer_forward_from (ops := ShapeOps Train) k i l s)
             (ResNet.layer_forward_from (ops := ShapeOps Eval) k i l s).
Proof.
  induction l as [|b l IH]; intros i s; cbn [ResNet.layer_forward_from].
  - apply ok_implies_refl.
  - apply ok_implies_bind; [apply block_train_eval | intros; apply IH].
Qed.

Lemma resnet_train_eval k r s :
  ok_implies (ResNet.forward (ops := ShapeOps Train) k r s)
             (ResNet.forward (ops := ShapeOps Eval) k r s).
Proof.
  unfold ResNet.forward, ResNet.layer_forward.
  cbn [F_conv3d F_batch_norm F_relu F_max_pool3d F_adaptive_avg_pool3d torch_flatten
       F_linear ShapeOps].
  repeat first [ apply layer_train_eval | ok_step ].
Qed.

Lemma sequential_train_eval l : forall s,
  ok_implies (Sequential.forward (ops := ShapeOps Train) l s)
             (Sequential.forward (ops := ShapeOps Eval) l s).
Proof.
  induction l as [|m l IH]; intros s; cbn [Sequential.forward].
  - apply ok_implies_refl.
  - apply ok_implies_bind; [|intros; apply IH].
    destruct m; cbn [Sequential.call F_conv3d F_batch_norm F_relu F_max_pool3d
                     F_adaptive_avg_pool3d F_linear ShapeOps];
      first [ apply ok_implies_refl | apply batch_norm_train_eval | apply layer_train_eval ].
Qed.

(** X9: inference mode accepts whatever training mode accepts: for any
    twin encoder (over any backbone, also one put together by hand) and any
    two input sizes, if the forward pass returns in training mode it returns
    the same sizes in inference mode. *)
Theorem train_ok_then_eval_ok (model : ModelComb.t) (x1 x2 : shape)
    (out : shape * shape * shape * shape) :
  ModelComb.forward (ops := ShapeOps Train) model x1 x2 = Ok out ->
  ModelComb.forward (ops := ShapeOps Eval) model x1 x2 = Ok out.
Proof.
  revert out. change (ok_implies (ModelComb.forward (ops := ShapeOps Train) model x1 x2)
                                 (ModelComb.forward (ops := ShapeOps Eval) model x1 x2)).
  unfold ModelComb.forward.
  apply ok_implies_bind; [apply resnet_train_eval | intros reg0].
  apply ok_implies_bind; [apply resnet_train_eval | intros reg1].
  cbv zeta.
  apply ok_implies_bind; [apply sequential_train_eval | intros features_x1].
  apply ok_implies_bind; [apply sequential_train_eval | intros features_x2].
  apply ok_implies_refl.
Qed.

Lemma train_ok_then_eval_ok_witness :
  exists m,
    model = Some m
    /\ ModelComb.forward (ops := ShapeOps Train) m [8; 1; 64; 64; 64] [8; 1; 64; 64; 64]
       = Ok ([8; 2048; 2; 2; 2], [8; 2048; 2; 2; 2], [8; 1], [8; 1])
    /\ ModelComb.forward (ops := ShapeOps Eval) m [8; 1; 64; 64; 64] [8; 1; 64; 64; 64]
       = Ok ([8; 2048; 2; 2; 2], [8; 2048; 2; 2; 2], [8; 1], [8; 1]).
Proof.
  destruct (resnet101_total (mk_kwargs (Some 1) None (Some 1))) as [r Hr].
  exists (ModelComb.init r 1 1). unfold model. rewrite Hr. split; [reflexivity|].
  assert (Hf : ModelComb.forward (ops := ShapeOps Train) (ModelComb.init r 1 1)
                 [8; 1; 64; 64; 64] [8; 1; 64; 64; 64]
               = Ok ([8; 2048; 2; 2; 2], [8; 2048; 2; 2; 2], [8; 1], [8; 1])).
  { unfold resnet101 in Hr. cbn [default kw_num_classes kw_dropout_rate kw_in_channels] in Hr.
    rewrite (twin_shapes Train _ _ _ _ _ _ 1 1 8 64 64 64 Hr); try lia.
    - rewrite !(reduced_32 64) by reflexivity. reflexivity.
    - rewrite !(reduced_32 64) by reflexivity. cbn. lia. }
  split; [exact Hf|].
  exact (train_ok_then_eval_ok (ModelComb.init r 1 1) _ _ _ Hf).
Defined.

(** ** Sizes: a block without the projection it needs *)






(** ** The losses: bounds and zeros *)

Section LossExtras.
Local Open Scope R_scope.

Lemma mean_bounds (a b : R) (l : list R) :
  l <> [] -> Forall (fun v => a <= v <= b) l -> a <= mean l <= b.
Proof.
  intros Hne Hall. unfold mean.
  assert (Hn : 0 < INR (List.length l)).
  { apply lt_0_INR. destruct l; [contradiction | cbn; lia]. }
  assert (Hs : INR (List.length l) * a <= sum l <= INR (List.length l) * b).
  { clear Hne Hn. induction Hall as [|v l Hv _ IH].
    - cbn. lra.
    - cbn [sum fold_right List.length]. fold (sum l). rewrite S_INR. lra. }
  split.
  - apply (Rmult_le_reg_r (INR (List.length l))); [exact Hn|].
    unfold Rdiv. rewrite Rmult_assoc, Rinv_l by lra. lra.
  - apply (Rmult_le_reg_r (INR (List.length l))); [exact Hn|].
    unfold Rdiv. rewrite Rmult_assoc, Rinv_l by lra. lra.
Qed.

Lemma distances_nonneg x1 x2 :
  Forall (fun d => 0 <= d) (Tensor.data (F_pairwise_distance x1 x2)).
Proof.
  unfold F_pairwise_distance. cbn [Tensor.data]. apply Forall_map.
  apply Forall_forall. intros v _. unfold norm2. apply sqrt_pos.
Qed.

(** X11: on non-empty feature maps the contrastive loss lies between 0 and
    the margin (between 0 and 0 for a negative margin): the distances are
    norms, so no entry of the hinge exceeds the margin, and the clamp keeps
    every entry at 0 or more. *)
Theorem contrastive_loss_bounds (x1 x2 : Tensor.t) (margin : R) :
  Tensor.data (F_pairwise_distance x1 x2) <> [] ->
  0 <= contrastive_loss x1 x2 margin <= Rmax margin 0.
Proof.
  intros Hne. rewrite contrastive_loss_hinge_mean.
  apply mean_bounds.
  - destruct (Tensor.data (F_pairwise_distance x1 x2)); [contradiction | discriminate].
  - apply Forall_map. eapply Forall_impl; [|apply distances_nonneg].
    intros d Hd. cbv beta in *. unfold hinge. split.
    + apply Rmax_r.
    + apply Rle_max_compat_r. lra.
Qed.

Lemma contrastive_loss_bounds_witness :
  Tensor.data (F_pairwise_distance zeros_2 two_zero) <> []
  /\ 0 <= contrastive_loss zeros_2 two_zero 1 <= Rmax 1 0.
Proof.
  assert (Hne : Tensor.data (F_pairwise_distance zeros_2 two_zero) <> [])
    by (rewrite distances_zeros_two; discriminate).
  split; [exact Hne|]. exact (contrastive_loss_bounds zeros_2 two_zero 1 Hne).
Defined.

Lemma sum_const (A : Type) (c : R) (l : list A) :
  sum (map (fun _ => c) l) = INR (List.length l) * c.
Proof.
  induction l as [|a l IH]; [cbn; lra|].
  cbn [map sum fold_right List.length]. fold (sum (map (fun _ : A => c) l)).
  rewrite IH, S_INR. lra.
Qed.

Lemma sqrt_scaled (w e : R) : 0 <= w -> 0 <= e -> sqrt (w * (e * e)) = sqrt w * e.
Proof.
  intros Hw He. rewrite sqrt_mult by nra. now rewrite sqrt_square.
Qed.

(** X12: a feature map against itself.  For a non-empty map of size
    [(B, C, D, H, W)] the contrastive loss of the map with itself is
    [max(margin - sqrt(W) * eps, 0)]: every row distance is [sqrt(W) * 1e-6],
    not 0, because [eps] is added to the difference. *)
Theorem contrastive_loss_same_map (x : Tensor.t) (B C D H W : Z) (margin : R) :
  Tensor.size x = [B; C; D; H; W]%Z ->
  Tensor.wf x ->
  (1 <= B * C * D * H)%Z ->
  contrastive_loss x x margin = Rmax (margin - sqrt (IZR W) * eps) 0.
Proof.
  intros Hs Hwf Hrows.
  pose proof (wf_5d_length x B C D H W Hs Hwf) as L.
  assert (HW : (0 <= W)%Z).
  { destruct Hwf as [Hnn _]. rewrite Hs in Hnn.
    repeat match goal with H : Forall _ (_ :: _) |- _ => inversion H; subst; clear H end.
    assumption. }
  pose proof eps_bounds as He.
  rewrite contrastive_loss_hinge_mean. unfold F_pairwise_distance.
  rewrite Hs. cbn [removelast last Tensor.data prod fold_right].
  replace (B * (C * (D * (H * 1))))%Z with (B * C * D * H)%Z by lia.
  set (n := Z.to_nat (B * C * D * H)) in *. set (w := Z.to_nat W) in *.
  assert (Hn : (1 <= n)%nat) by (unfold n; lia).
  rewrite rows_seq, !map_map.
  rewrite (map_ext_in _ (fun _ => hinge margin (sqrt (IZR W) * eps))).
  - unfold mean. rewrite sum_const, length_map, length_seq.
    assert (0 < INR n) by (apply lt_0_INR; lia). unfold hinge. field. lra.
  - intros j Hj. apply in_seq in Hj. f_equal.
    assert (Hjw : (j * w + w <= n * w)%nat) by nia.
    rewrite firstn_skipn_seq by (rewrite length_map, length_combine; lia).
    unfold norm2. rewrite map_map.
    rewrite (map_ext_in _ (fun _ => eps * eps)).
    + rewrite sum_const, length_seq.
      replace (INR w) with (IZR W) by (unfold w; rewrite INR_IZR_INZ, Z2Nat.id; auto).
      apply sqrt_scaled; [apply IZR_le; lia | lra].
    + intros k Hk. apply in_seq in Hk.
      rewrite diff_nth by (try lia; nia). f_equal; lra.
Qed.

Lemma contrastive_loss_same_map_witness :
  Tensor.size zeros_2 = [1; 1; 1; 2; 1]%Z
  /\ Tensor.wf zeros_2
  /\ (1 <= 1 * 1 * 1 * 2)%Z
  /\ contrastive_loss zeros_2 zeros_2 1 = Rmax (1 - sqrt (IZR 1) * eps) 0.
Proof.
  assert (W1 : Tensor.wf zeros_2) by (split; [repeat constructor; lia | reflexivity]).
  assert (Hr : (1 <= 1 * 1 * 1 * 2)%Z) by lia.
  split; [reflexivity|]. split; [exact W1|]. split; [exact Hr|].
  exact (contrastive_loss_same_map zeros_2 1 1 1 2 1 1 eq_refl W1 Hr).
Defined.

Lemma sum_squares (a : list R) : forall b,
  List.length a = List.length b ->
  0 <= sum (map (fun '(x, y) => (x - y) * (x - y)) (combine a b))
  /\ (sum (map (fun '(x, y) => (x - y) * (x - y)) (combine a b)) = 0 <-> a = b).
Proof.
  induction a as [|x a IH]; intros [|y b] Hl; try discriminate.
  - cbn. split; [lra | tauto].
  - cbn [combine map sum fold_right].
    fold (sum (map (fun '(x, y) => (x - y) * (x - y)) (combine a b))).
    injection Hl as Hl. destruct (IH b Hl) as [Hnn Hz].
    assert (Hsq : 0 <= (x - y) * (x - y)) by (apply (Rle_0_sqr (x - y))).
    split; [lra|]. split.
    + intros E. assert (Hxy : (x - y) * (x - y) = 0) by lra.
      assert (x = y) by (destruct (Rmult_integral _ _ Hxy); lra). subst y. f_equal. apply Hz. lra.
    + intros [= -> ->]. rewrite (proj2 Hz eq_refl). lra.
Qed.

(** X13: the regression loss on two non-empty tensors of one size is
    never negative, and it is 0 exactly when the prediction equals the
    target element by element.  (Two tensors of different sizes are
    expanded first, and equal elements can then give a positive loss: see
    [mse_loss_broadcasts].) *)
Theorem mse_loss_zero_iff_equal (input target : Tensor.t) :
  Tensor.size input = Tensor.size target ->
  Tensor.wf input -> Tensor.wf target ->
  Tensor.data input <> [] ->
  0 <= mse_loss_fn input target
  /\ (mse_loss_fn input target = 0 <-> Tensor.data input = Tensor.data target).
Proof.
  intros Hs Hi Ht Hne. rewrite (mse_loss_same_size input target Hs Hi Ht).
  pose proof (wf_same_size_length input target Hs Hi Ht) as Hl. unfold mean.
  destruct (sum_squares _ _ Hl) as [Hnn Hz].
  rewrite length_map, length_combine, <- Hl, Nat.min_id.
  assert (Hn : 0 < INR (List.length (Tensor.data input))).
  { apply lt_0_INR. destruct (Tensor.data input); [contradiction | cbn; lia]. }
  set (S := sum _) in *. set (n := INR _) in *.
  split; [|split].
  - apply Rmult_le_pos; [exact Hnn | left; now apply Rinv_0_lt_compat].
  - intros E. apply Hz.
    apply (Rmult_eq_reg_r (/ n)); [|apply Rinv_neq_0_compat; lra].
    unfold Rdiv in E. lra.
  - intros E. apply Hz in E. rewrite E. unfold Rdiv. lra.
Qed.

Lemma mse_loss_zero_iff_equal_witness :
  Tensor.size two_zero = Tensor.size zeros_2
  /\ Tensor.wf two_zero /\ Tensor.wf zeros_2
  /\ Tensor.data two_zero <> []
  /\ 0 <= mse_loss_fn two_zero zeros_2
  /\ mse_loss_fn two_zero two_zero = 0.
Proof.
  assert (W1 : Tensor.wf zeros_2) by (split; [repeat constructor; lia | reflexivity]).
  assert (W2 : Tensor.wf two_zero) by (split; [repeat constructor; lia | reflexivity]).
  assert (Hne : Tensor.data two_zero <> []) by discriminate.
  split; [reflexivity|]. split; [exact W2|]. split; [exact W1|]. split; [exact Hne|]. split.
  - exact (proj1 (mse_loss_zero_iff_equal two_zero zeros_2 eq_refl W2 W1 Hne)).
  - exact (proj2 (proj2 (mse_loss_zero_iff_equal two_zero two_zero eq_refl W2 W2 Hne)) eq_refl).
Defined.
End LossExtras.

(** ** Forward passes on values: further properties *)

Section ValueExtras.
Context {store : Type} {K : Backend store}.

(** X14: in inference mode the two branches of the twin encoder do not
    touch each other: from any store, the first feature map is what the view
    computes on [x1] alone from that store and the first prediction is the
    head applied to that feature map, the second branch likewise on [x2],
    and the store comes back unchanged. *)
Theorem twin_branches_independent (model : ModelComb.t) (x1 x2 : Tensor.t) (st : store) :
  let r := ModelComb.resnet model in
  let view x :=
    fst (Sequential.forward (ops := ValueOps Eval)
           (drop_last 2 (children [Attr "resnet"] r)) x st) in
  let predict features :=
    fst (head (ops := ValueOps Eval) [Attr "resnet"] r features st) in
  ModelComb.forward (ops := ValueOps Eval) model x1 x2 st
  = ((view x1, view x2, predict (view x1), predict (view x2)), st).
Proof.
  cbv zeta. unfold ModelComb.forward. cbn [bind ret Monad_State].
  rewrite !eval_forward_through_features.
  rewrite (preserves_run _ st (sequential_preserves _ x1)).
  rewrite (preserves_run _ st (sequential_preserves _ x2)).
  reflexivity.
Qed.

Ltac split_runs :=
  repeat match goal with
         | |- context [let (_, _) := ?e in _] =>
             lazymatch e with
             | (let (_, _) := _ in _) => fail
             | _ => destruct e
             end
         end.

Lemma relu_nonneg x : nonneg (Value.relu x).
Proof.
  unfold nonneg, Value.relu. cbn [Tensor.data]. apply Forall_map, Forall_forall.
  intros v _. apply Rmax_l.
Qed.

Lemma block_nonneg md k b x st :
  nonneg (fst (Block.forward (ops := ValueOps md) k b x st)).
Proof.
  destruct b as [b|b]; cbn [Block.forward];
    [unfold BasicBlock.forward | unfold Bottleneck.forward];
    cbn [bind ret Monad_State F_relu F_conv3d iadd ValueOps];
    split_runs; cbn [fst]; apply relu_nonneg.
Qed.

Lemma layer_nonneg md k l : forall i x st,
  l <> [] -> nonneg (fst (ResNet.layer_forward_from (ops := ValueOps md) k i l x st)).
Proof.
  induction l as [|b l IH]; intros i x st Hne; [contradiction|].
  cbn [ResNet.layer_forward_from bind Monad_State].
  pose proof (block_nonneg md (item k i) b x st) as Hb.
  destruct (Block.forward (ops := ValueOps md) (item k i) b x st) as [y st'].
  destruct l as [|b' l'].
  - cbn [ResNet.layer_forward_from ret Monad_State fst] in *. exact Hb.
  - apply IH. discriminate.
Qed.

Lemma init_layer4_nonempty block layers num_classes p cin r :
  ResNet.init block layers num_classes p cin = Some r -> ResNet.layer4 r <> [].
Proof.
  intros Hr. destruct (init_layers _ _ _ _ _ _ Hr) as (l0 & l1 & l2 & l3 & _ & _ & _ & _ & ->).
  cbn [ResNet.layer4]. unfold ResNet._make_layer. cbn [fst app]. discriminate.
Qed.

Lemma view_nonneg md k block layers num_classes p cin r x st :
  ResNet.init block layers num_classes p cin = Some r ->
  nonneg (fst (Sequential.forward (ops := ValueOps md) (drop_last 2 (children k r)) x st)).
Proof.
  intros Hr. pose proof (init_layer4_nonempty _ _ _ _ _ _ Hr) as Hne.
  unfold drop_last, children.
  cbn [List.length Nat.sub firstn Sequential.forward Sequential.call bind ret Monad_State
       F_conv3d F_relu F_max_pool3d ValueOps].
  unfold ResNet.layer_forward.
  repeat match goal with
         | |- context [let (_, _) := ?e in _] =>
             lazymatch e with
             | (let (_, _) := _ in _) => fail
             | ResNet.layer_forward_from (sub k "layer4") _ _ _ _ => fail
             | _ => destruct e
             end
         end.
  match goal with
  | |- context [ResNet.layer_forward_from ?k' ?i ?l ?y ?s] =>
      pose proof (layer_nonneg md k' l i y s Hne) as Hl;
      destruct (ResNet.layer_forward_from (ops := ValueOps md) k' i l y s)
  end.
  exact Hl.
Qed.

(** X15: the feature maps are outputs of a ReLU.  For a twin encoder over a
    built backbone, in either mode, from any store and on any two inputs,
    no entry of either returned feature map is negative. *)
Theorem features_nonnegative md block layers num_classes p cin r a b
    (x1 x2 : Tensor.t) (st : store) :
  ResNet.init block layers num_classes p cin = Some r ->
  let '(features_x1, features_x2, _, _) :=
    fst (ModelComb.forward (ops := ValueOps md) (ModelComb.init r a b) x1 x2 st) in
  nonneg features_x1 /\ nonneg features_x2.
Proof.
  intros Hr. unfold ModelComb.forward, ModelComb.init.
  cbn [ModelComb.resnet bind ret Monad_State].
  destruct (ResNet.forward (ops := ValueOps md) [Attr "resnet"] r x1 st) as [reg0 st1].
  destruct (ResNet.forward (ops := ValueOps md) [Attr "resnet"] r x2 st1) as [reg1 st2].
  pose proof (view_nonneg md [Attr "resnet"] _ _ _ _ _ r x1 st2 Hr) as H1.
  destruct (Sequential.forward (ops := ValueOps md)
              (drop_last 2 (children [Attr "resnet"] r)) x1 st2) as [f1 st3].
  pose proof (view_nonneg md [Attr "resnet"] _ _ _ _ _ r x2 st3 Hr) as H2.
  destruct (Sequential.forward (ops := ValueOps md)
              (drop_last 2 (children [Attr "resnet"] r)) x2 st3) as [f2 st4].
  cbn [fst] in *. split; assumption.
Qed.
End ValueExtras.

Lemma features_nonnegative_witness :
  exists r,
    ResNet.init BasicBlock_cls [1; 1; 1; 1] 1 0%Q 1 = Some r
    /\ let '(features_x1, features_x2, _, _) :=
         fst (ModelComb.forward (ops := ValueOps (K := ListBackend) Train)
                (ModelComb.init r 1 1) two_voxels two_voxels [true; false]) in
       nonneg features_x1 /\ nonneg features_x2.
Proof.
  eexists. split; [reflexivity|].
  exact (features_nonnegative (K := ListBackend) Train BasicBlock_cls [1; 1; 1; 1] 1 0%Q 1 _
           1 1 two_voxels two_voxels [true; false] eq_refl).
Defined.

(** ** Sizes: inference mode *)

Lemma conv_out_empty : Shape.conv_out 0 7 2 3 = Raise RuntimeError.
Proof. reflexivity. Qed.

Lemma stem_conv_empty cin n D H W :
  0 <= D -> 0 <= H -> 0 <= W ->
  (1 <=? D) && (1 <=? H) && (1 <=? W) = false ->
  Shape.conv3d (Conv3d.mk cin 64 (7, 7, 7) (2, 2, 2) (3, 3, 3)) [n; cin; D; H; W]
  = Raise RuntimeError.
Proof.
  intros HD HH HW Hz. unfold Shape.conv3d, Shape.conv_out3.
  cbn [Conv3d.in_channels Conv3d.out_channels Conv3d.kernel_size Conv3d.stride Conv3d.padding].
  rewrite Z.eqb_refl.
  destruct (Z.leb_spec 1 D) as [HD1|HD0].
  - rewrite (conv_out_7_3 D HD1). cbn [bind Monad_result].
    destruct (Z.leb_spec 1 H) as [HH1|HH0].
    + rewrite (conv_out_7_3 H HH1). cbn [bind Monad_result].
      destruct (Z.leb_spec 1 W) as [HW1|HW0]; [discriminate|].
      replace W with 0 by lia. now rewrite conv_out_empty.
    + replace H with 0 by lia. now rewrite conv_out_empty.
  - replace D with 0 by lia. now rewrite conv_out_empty.
Qed.

(** X16: in inference mode a backbone built for at least one input channel
    has no minimum input size: on an input of size
    [(n, in_channels, D, H, W)] holding at least one volume it returns size
    [(n, num_classes)] whenever [D], [H] and [W] are all at least 1; when
    one of them is 0 the first convolution raises [RuntimeError], and so
    does the forward pass. *)
Theorem inference_forward_outcome block layers num_classes p cin r n D H W :
  ResNet.init block layers num_classes p cin = Some r ->
  1 <= cin -> 1 <= n ->
  0 <= D -> 0 <= H -> 0 <= W ->
  ResNet_shape Eval r [n; cin; D; H; W]
  = (if (1 <=? D) && (1 <=? H) && (1 <=? W)
     then Ok [n; num_classes]
     else Raise RuntimeError)
  /\ ((1 <=? D) && (1 <=? H) && (1 <=? W) = false ->
      Shape.conv3d (ResNet.conv1 r) [n; cin; D; H; W] = Raise RuntimeError).
Proof.
  intros Hr Hcin Hn HD HH HW.
  destruct ((1 <=? D) && (1 <=? H) && (1 <=? W)) eqn:E.
  - split; [|discriminate].
    apply andb_prop in E. destruct E as [E HW1]. apply andb_prop in E. destruct E as [HD1 HH1].
    apply Z.leb_le in HD1, HH1, HW1.
    now apply (ResNet_shape_ok Eval block layers num_classes p cin r).
  - destruct (init_layers _ _ _ _ _ _ Hr) as (l0 & l1 & l2 & l3 & _ & _ & _ & _ & ->).
    unfold ResNet_shape, ResNet.forward. cbn [ResNet.conv1 F_conv3d ShapeOps].
    rewrite stem_conv_empty by assumption. split; reflexivity.
Qed.

Lemma inference_forward_outcome_witness :
  exists r,
    resnet101 (mk_kwargs (Some 1) None (Some 1)) = Some r
    /\ 1 <= 1
    /\ ResNet_shape Eval r [1; 1; 1; 1; 1] = Ok [1; 1]
    /\ ResNet_shape Eval r [1; 1; 64; 0; 64] = Raise RuntimeError
    /\ Shape.conv3d (ResNet.conv1 r) [1; 1; 64; 0; 64] = Raise RuntimeError.
Proof.
  destruct (resnet101_total (mk_kwargs (Some 1) None (Some 1))) as [r Hr].
  assert (H1 : 1 <= 1) by lia.
  exists r. split; [exact Hr|]. split; [exact H1|]. split; [|split].
  - exact (proj1 (inference_forward_outcome Bottleneck_cls [3; 4; 23; 3] 1 0%Q 1 r 1 1 1 1 Hr
                    H1 H1 ltac:(lia) ltac:(lia) ltac:(lia))).
  - exact (proj1 (inference_forward_outcome Bottleneck_cls [3; 4; 23; 3] 1 0%Q 1 r 1 64 0 64 Hr
                    H1 H1 ltac:(lia) ltac:(lia) ltac:(lia))).
  - exact (proj2 (inference_forward_outcome Bottleneck_cls [3; 4; 23; 3] 1 0%Q 1 r 1 64 0 64 Hr
                    H1 H1 ltac:(lia) ltac:(lia) ltac:(lia)) eq_refl).
Defined.

(** ** Sizes: degenerate inputs *)

(** A backbone built for no input channel on a volume without channels: the
    convolution returns a size without channels, the normalisation lets the
    empty tensor pass, and the pooling raises. *)
Lemma zero_channels_raise :
  exists r,
    ResNet.init BasicBlock_cls [1; 1; 1; 1] 1 0%Q 0 = Some r
    /\ Shape.conv3d (ResNet.conv1 r) [2; 0; 64; 64; 64] = Ok [2; 0; 32; 32; 32]
    /\ Shape.batch_norm Train (ResNet.bn1 r) [2; 0; 32; 32; 32] = Ok [2; 0; 32; 32; 32]
    /\ Shape.max_pool3d (ResNet.maxpool r) [2; 0; 32; 32; 32] = Raise RuntimeError
    /\ ResNet_shape Train r [2; 0; 64; 64; 64] = Raise RuntimeError
    /\ ResNet_shape Eval r [2; 0; 64; 64; 64] = Raise RuntimeError.
Proof. eexists. repeat split; reflexivity. Qed.

(** The pooling to [(1, 1, 1)] is a mean over the last three axes and
    returns on an empty axis too. *)
Lemma avgpool_empty_axis :
  Shape.adaptive_avg_pool3d (AdaptiveAvgPool3d.mk (1, 1, 1)) [2; 3; 0; 4; 4]
  = Ok [2; 3; 1; 1; 1].
Proof. reflexivity. Qed.

(** ** The training cell: sign of the total loss *)

Section TotalLoss.
Context {store : Type} {K : Backend store}.
Local Open Scope R_scope.

Lemma hinge_mean_nonneg (m : R) (ds : list R) : ds <> [] -> 0 <= mean (map (hinge m) ds).
Proof.
  intros Hne. unfold mean. rewrite length_map.
  apply Rmult_le_pos.
  - clear Hne. induction ds as [|d ds IH]; cbn [map sum fold_right]; [lra|].
    fold (sum (map (hinge m) ds)). pose proof (hinge_nonneg m d). lra.
  - left. apply Rinv_0_lt_compat, lt_0_INR. destruct ds; [contradiction | cbn; lia].
Qed.

(** X17: the total loss of the training cell is never negative, whenever
    the twin encoder returns non-empty feature maps and a non-empty first
    prediction with as many elements as [y1]. *)
Theorem total_loss_nonnegative (model : ModelComb.t) (x1 x2 y1 y2 : Tensor.t) (st : store) :
  let '(features_x1, features_x2, reg0, _) :=
    fst (ModelComb.forward (ops := ValueOps Train) model x1 x2 st) in
  Tensor.data (F_pairwise_distance features_x1 features_x2) <> [] ->
  Tensor.data reg0 <> [] ->
  List.length (Tensor.data reg0) = List.length (Tensor.data y1) ->
  0 <= fst (total_loss model x1 x2 y1 y2 st).
Proof.
  unfold total_loss. cbn [bind ret Monad_State].
  destruct (ModelComb.forward (ops := ValueOps Train) model x1 x2 st)
    as [[[[f1 f2] r0] r1] st'].
  cbn [fst]. intros Hd Hr Hl.
  rewrite contrastive_loss_hinge_mean.
  pose proof (hinge_mean_nonneg 1 _ Hd).
  pose proof (mse_loss_nonneg r0 y1).
  lra.
Qed.
End TotalLoss.

Lemma total_loss_nonnegative_witness :
  exists r,
    ResNet.init BasicBlock_cls [1; 1; 1; 1] 1 0%Q 1 = Some r
    /\ (let '(features_x1, features_x2, reg0, _) :=
          fst (ModelComb.forward (ops := ValueOps (K := ListBackend) Train)
                 (ModelComb.init r 1 1) two_voxels two_voxels [true; false]) in
        Tensor.data (F_pairwise_distance features_x1 features_x2) <> []
        /\ Tensor.data reg0 <> []
        /\ List.length (Tensor.data reg0) = List.length (Tensor.data two_voxels))
    /\ (0 <= fst (total_loss (K := ListBackend) (ModelComb.init r 1 1)
                   two_voxels two_voxels two_voxels two_voxels [true; false]))%R.
Proof.
  eexists. split; [reflexivity|].
  match goal with
  | |- _ /\ (0 <= fst (total_loss ?m _ _ _ _ _))%R =>
      pose proof (total_loss_nonnegative (K := ListBackend) m
                    two_voxels two_voxels two_voxels two_voxels [true; false]) as T
  end.
  destruct (fst (ModelComb.forward (ops := ValueOps (K := ListBackend) Train) _
                   two_voxels two_voxels [true; false]))
    as [[[f1 f2] r0] r1] eqn:E.
  cbn in E. injection E as Ef1 Ef2 Er0 Er1.
  symmetry in Ef1, Ef2, Er0. clear Er1.
  assert (H1 : Tensor.data (F_pairwise_distance f1 f2) <> [])
    by (subst f1 f2; unfold F_pairwise_distance; cbn; discriminate).
  assert (H2 : Tensor.data r0 <> []) by (subst r0; cbn; discriminate).
  assert (H3 : List.length (Tensor.data r0) = List.length (Tensor.data two_voxels))
    by (subst r0; reflexivity).
  split; [split; [exact H1 | split; [exact H2 | exact H3]]|].
  exact (T H1 H2 H3).
Defined.
